(** * useNotifications: the notification list hook

    A shallow embedding of [src/hooks/useNotifications.ts].

    The hook keeps three pieces of React state ([notifications], [loading],
    [error]) and talks to three collaborators: the HTTP gateway ([fetch]),
    the toast library ([toast.error], [toast.info]) and the console.  Each of
    them is a field of [World]; an operation of the hook is a function on
    worlds that may complete normally or abruptly (a JavaScript [throw]).

    What the network answers is an input of each operation: the settled
    result of the [fetch] promise, and inside a response the settled results
    of [response.text()] and [response.json()].

    State setters are applied in program order to the latest state, which is
    what React does with a sequence of [setX(v)] and [setX(prev => ...)]
    calls; an operation is run from the state in which it is started until
    its promise settles, without another handler running in between.

    Of a console call only the label is recorded; a JSON body is either the
    array of notifications or an object read as an [ApiError]. *)

From Stdlib Require Import String Ascii List ZArith Bool Lia.
Import ListNotations.

Local Open Scope string_scope.

(** ** Data *)

(** [interface Notification]; dates are epoch milliseconds, [eventId] is
    nullable in the schema ([String?]). *)
Module Notification.
Record t : Type := make {
  id : string;
  userId : string;
  type : string;
  message : string;
  read : bool;
  eventId : option string;
  createdAt : Z;
  updatedAt : Z
}.

(** [{ ...notification, read: true }] *)
Definition with_read (n : t) (b : bool) : t :=
  make (id n) (userId n) (type n) (message n) b
       (eventId n) (createdAt n) (updatedAt n).
End Notification.

Abbreviation Notification := Notification.t.

(** [interface ApiError]; a field that the parsed body does not carry is
    [None] (JavaScript [undefined]). *)
Module ApiError.
Record t : Type := make {
  error : option string;
  details : option string
}.
End ApiError.

Abbreviation ApiError := ApiError.t.

(** The [user] object of [useAuth()]; only its [id] is read. *)
Record User : Type := mkUser { user_id : string }.

(** A thrown JavaScript value: an [Error] instance with its [message], or
    anything else. *)
Inductive Thrown : Type :=
| JsError (message : string)
| JsNonError.

(** How an evaluation or a promise ends. *)
Inductive Completion (A : Type) : Type :=
| Normal (a : A)
| Abrupt (e : Thrown).

Arguments Normal {A} a.
Arguments Abrupt {A} e.

(** What [response.json()] can resolve to for this API: the array of the
    list endpoint or an error object. *)
Inductive JsonValue : Type :=
| JsonArray (data : list Notification)
| JsonObject (body : ApiError).

(** A [Response]: the status line, the [content-type] header as
    [headers.get] returns it ([None] is [null]), and what reading the body
    as text or as JSON settles to. *)
Record Response : Type := mkResponse {
  status : Z;
  content_type : option string;
  text : Completion string;
  json : Completion JsonValue
}.

(** [response.ok]: the status is in the range 200-299. *)
Definition ok (r : Response) : bool :=
  ((200 <=? status r) && (status r <=? 299))%Z.

(** The arguments of one [fetch] call. *)
Record Request : Type := mkRequest {
  url : string;
  method : string;
  credentials : option string
}.

Inductive Toast : Type :=
| ToastError (msg : string)
| ToastInfo (msg : string).

(** A console call; only the label (first argument) is kept. *)
Inductive ConsoleEntry : Type :=
| ConsoleLog (label : string)
| ConsoleError (label : string).

(** The three [useState] cells and the logs of the collaborators, each log
    in chronological order. *)
Record World : Type := mkWorld {
  notifications : list Notification;
  loading : bool;
  error : option string;
  toasts : list Toast;
  requests : list Request;
  console : list ConsoleEntry
}.

(** [useState([])], [useState(true)], [useState(null)] *)
Definition initial : World := mkWorld [] true None [] [] [].

(** ** JavaScript helpers *)

(** [s.includes(sub)] on strings *)
Fixpoint includes (s sub : string) : bool :=
  String.prefix sub s ||
  match s with
  | EmptyString => false
  | String _ rest => includes rest sub
  end.

(** [ids.includes(x)] on an array of strings *)
Definition array_includes (ids : list string) (x : string) : bool :=
  existsb (String.eqb x) ids.

(** [ids.join(",")] *)
Definition join (sep : string) (ids : list string) : string :=
  String.concat sep ids.

(** Truthiness of a possibly undefined string: [undefined], [null] and the
    empty string are falsy. *)
Definition truthy (v : option string) : bool :=
  match v with
  | Some s => negb (String.eqb s "")
  | None => false
  end.

(** [a || b] *)
Definition js_or (a b : option string) : option string :=
  if truthy a then a else b.

(** [new Error(v)]: the message is the string, or empty for [undefined]. *)
Definition new_Error (v : option string) : Thrown :=
  JsError (match v with Some s => s | None => "" end).

(** [err instanceof Error ? err.message : fallback] *)
Definition message_or (err : Thrown) (fallback : string) : string :=
  match err with
  | JsError m => m
  | JsNonError => fallback
  end.

(** The value of [errorData] when the parsed body is used as an [ApiError]:
    an array has neither property. *)
Definition as_ApiError (v : JsonValue) : ApiError :=
  match v with
  | JsonObject body => body
  | JsonArray _ => ApiError.make None None
  end.

(** ** Effects *)

Definition Eff (A : Type) : Type := World -> Completion A * World.

Definition ret {A} (a : A) : Eff A := fun w => (Normal a, w).

Definition bind {A B} (c : Eff A) (k : A -> Eff B) : Eff B :=
  fun w =>
    match c w with
    | (Normal a, w') => k a w'
    | (Abrupt e, w') => (Abrupt e, w')
    end.

Notation "x <- c ;; k" := (bind c (fun x => k))
  (at level 61, c at next level, right associativity).
Notation "c ;; k" := (bind c (fun _ => k))
  (at level 61, right associativity).

Definition throw {A} (e : Thrown) : Eff A := fun w => (Abrupt e, w).

(** [await p] for a promise whose settlement is known *)
Definition await {A} (p : Completion A) : Eff A := fun w => (p, w).

(** [try { body } catch (err) { handler }] *)
Definition try_catch {A} (body : Eff A) (handler : Thrown -> Eff A) : Eff A :=
  fun w =>
    match body w with
    | (Normal a, w') => (Normal a, w')
    | (Abrupt e, w') => handler e w'
    end.

(** [try { body } finally { final }] *)
Definition try_finally {A} (body : Eff A) (final : Eff unit) : Eff A :=
  fun w =>
    let (c, w') := body w in
    match final w' with
    | (Normal _, w'') => (c, w'')
    | (Abrupt e, w'') => (Abrupt e, w'')
    end.

Definition setNotifications (l : list Notification) : Eff unit :=
  fun w => (Normal tt,
            mkWorld l (loading w) (error w) (toasts w) (requests w) (console w)).

(** [setNotifications(prev => f(prev))] *)
Definition updateNotifications
    (f : list Notification -> list Notification) : Eff unit :=
  fun w => (Normal tt,
            mkWorld (f (notifications w)) (loading w) (error w)
                    (toasts w) (requests w) (console w)).

Definition setLoading (b : bool) : Eff unit :=
  fun w => (Normal tt,
            mkWorld (notifications w) b (error w)
                    (toasts w) (requests w) (console w)).

Definition setError (e : option string) : Eff unit :=
  fun w => (Normal tt,
            mkWorld (notifications w) (loading w) e
                    (toasts w) (requests w) (console w)).

Definition toast (t : Toast) : Eff unit :=
  fun w => (Normal tt,
            mkWorld (notifications w) (loading w) (error w)
                    (toasts w ++ [t]) (requests w) (console w)).

Definition toast_error (msg : string) : Eff unit := toast (ToastError msg).
Definition toast_info (msg : string) : Eff unit := toast (ToastInfo msg).

Definition console_write (c : ConsoleEntry) : Eff unit :=
  fun w => (Normal tt,
            mkWorld (notifications w) (loading w) (error w)
                    (toasts w) (requests w) (console w ++ [c])).

Definition console_log (label : string) : Eff unit :=
  console_write (ConsoleLog label).
Definition console_error (label : string) : Eff unit :=
  console_write (ConsoleError label).

(** [await fetch(url, init)]: the request is issued, then the promise
    settles as the network decides. *)
Definition fetch (req : Request) (net : Completion Response) : Eff Response :=
  fun w =>
    (net, mkWorld (notifications w) (loading w) (error w)
                  (toasts w) (requests w ++ [req]) (console w)).

(** The world an operation leaves, and how it completed. *)
Definition run {A} (c : Eff A) (w : World) : World := snd (c w).
Definition completion {A} (c : Eff A) (w : World) : Completion A := fst (c w).

(** ** The operations of the hook *)

(** [data.length] and [data.map(...)] in the log call of the success path:
    on a value that is not an array, calling [data.map] is a [TypeError]. *)
Definition as_array (v : JsonValue) : Eff (list Notification) :=
  match v with
  | JsonArray data => ret data
  | JsonObject _ => throw (JsError "data.map is not a function")
  end.

(** The non-2xx branch of [loadNotifications] (lines 49-68): build
    [errorData], then throw. *)
Definition load_error_branch (response : Response) : Eff unit :=
  let contentType := content_type response in
  errorData <-
    (if truthy contentType &&
        match contentType with
        | Some ct => includes ct "application/json"
        | None => false
        end
     then
       try_catch
         (v <- await (json response) ;;
          ret (as_ApiError v))
         (fun jsonErr =>
            console_error "[useNotifications] Impossible de parser l'erreur JSON:" ;;
            ret (ApiError.make (Some "Erreur inconnue") None))
     else
       text <- await (text response) ;;
       console_error "[useNotifications] Erreur serveur non-JSON:" ;;
       ret (ApiError.make (Some "Erreur serveur: réponse non-JSON") (Some text))) ;;
  console_error "[useNotifications] Erreur serveur:" ;;
  throw (new_Error
           (js_or (js_or (ApiError.details errorData) (ApiError.error errorData))
                  (Some "Erreur lors de la récupération des notifications"))).

Definition loadNotifications
    (user : option User) (net : Completion Response) : Eff unit :=
  match user with
  | None =>
      console_log "[useNotifications] Pas d'utilisateur connecté" ;;
      setNotifications [] ;;
      setLoading false
  | Some _ =>
      try_finally
        (try_catch
           (console_log "[useNotifications] Chargement des notifications pour l'utilisateur:" ;;
            setLoading true ;;
            setError None ;;
            response <- fetch (mkRequest "/api/notifications" "GET" None) net ;;
            console_log "[useNotifications] Réponse du serveur:" ;;
            (if negb (ok response) then load_error_branch response else ret tt) ;;
            v <- await (json response) ;;
            data <- as_array v ;;
            console_log "[useNotifications] Notifications reçues:" ;;
            setNotifications data)
           (fun err =>
              console_error "[useNotifications] Erreur lors du chargement des notifications:" ;;
              let errorMessage :=
                message_or err "Erreur lors de la récupération des notifications" in
              setError (Some errorMessage) ;;
              toast_error errorMessage))
        (setLoading false)
  end.

(** The non-2xx branch of a mutation (lines 109-118 and 151-160): the body
    is read as JSON without looking at the content type. *)
Definition mutation_error_branch
    (label fallback : string) (response : Response) : Eff unit :=
  v <- await (json response) ;;
  let errorData := as_ApiError v in
  console_error label ;;
  throw (new_Error
           (js_or (js_or (ApiError.details errorData) (ApiError.error errorData))
                  (Some fallback))).

Definition markAsRead
    (user : option User) (notificationIds : list string)
    (net : Completion Response) : Eff unit :=
  match user with
  | None =>
      console_log "[useNotifications] Pas d'utilisateur connecté pour marquer comme lu"
  | Some _ =>
      try_catch
        (console_log "[useNotifications] Marquage des notifications comme lues:" ;;
         response <-
           fetch (mkRequest ("/api/notifications/" ++ join "," notificationIds)
                            "PATCH" None) net ;;
         (if negb (ok response)
          then mutation_error_branch
                 "[useNotifications] Erreur lors du marquage comme lu:"
                 "Erreur lors du marquage des notifications" response
          else ret tt) ;;
         updateNotifications
           (fun prev =>
              map (fun notification =>
                     if array_includes notificationIds (Notification.id notification)
                     then Notification.with_read notification true
                     else notification)
                  prev))
        (fun err =>
           console_error "[useNotifications] Erreur lors du marquage comme lu:" ;;
           let errorMessage :=
             message_or err "Impossible de marquer les notifications comme lues" in
           toast_error errorMessage)
  end.

Definition deleteNotifications
    (user : option User) (notificationIds : list string)
    (net : Completion Response) : Eff unit :=
  match user with
  | None =>
      console_log "[useNotifications] Pas d'utilisateur connecté pour supprimer"
  | Some _ =>
      try_catch
        (console_log "[useNotifications] Suppression des notifications:" ;;
         response <-
           fetch (mkRequest ("/api/notifications/" ++ join "," notificationIds)
                            "DELETE" (Some "include")) net ;;
         (if negb (ok response)
          then mutation_error_branch
                 "[useNotifications] Erreur lors de la suppression:"
                 "Erreur lors de la suppression des notifications" response
          else ret tt) ;;
         updateNotifications
           (fun prev =>
              filter (fun notification =>
                        negb (array_includes notificationIds
                                             (Notification.id notification)))
                     prev))
        (fun err =>
           console_error "[useNotifications] Erreur lors de la suppression:" ;;
           let errorMessage :=
             message_or err "Impossible de supprimer les notifications" in
           toast_error errorMessage)
  end.

(** The callback given to [supabase.auth.onAuthStateChange] (lines
    181-191).  [user] is the value captured by the effect; [net] is what
    the network answers if the callback starts a load. *)
Definition onAuthStateChange
    (user : option User) (event : string) (net : Completion Response)
    : Eff unit :=
  console_log "[useNotifications] Changement d'état d'authentification:" ;;
  if String.eqb event "SIGNED_IN" then
    loadNotifications user net
  else if String.eqb event "SIGNED_OUT" then
    setNotifications []
  else
    ret tt.

(** The payload of a [postgres_changes] event: its tag and the row images
    that the handler casts to [Notification]. *)
Module Payload.
Record t : Type := make {
  eventType : string;
  new : Notification;
  old : Notification
}.
End Payload.

Abbreviation Payload := Payload.t.

(** The callback of the realtime subscription (lines 209-241). *)
Definition onPostgresChanges (payload : Payload) : Eff unit :=
  console_log "[useNotifications] Changement temps réel détecté:" ;;
  if String.eqb (Payload.eventType payload) "INSERT" then
    let newNotification := Payload.new payload in
    console_log "[useNotifications] Nouvelle notification reçue:" ;;
    updateNotifications (fun prev => newNotification :: prev) ;;
    toast_info (Notification.message newNotification)
  else if String.eqb (Payload.eventType payload) "UPDATE" then
    let updatedNotification := Payload.new payload in
    console_log "[useNotifications] Notification mise à jour:" ;;
    updateNotifications
      (fun prev =>
         map (fun n =>
                if String.eqb (Notification.id n)
                              (Notification.id updatedNotification)
                then updatedNotification else n)
             prev)
  else if String.eqb (Payload.eventType payload) "DELETE" then
    let deletedNotification := Payload.old payload in
    console_log "[useNotifications] Notification supprimée:" ;;
    updateNotifications
      (fun prev =>
         filter (fun n =>
                   negb (String.eqb (Notification.id n)
                                    (Notification.id deletedNotification)))
                prev)
  else
    ret tt.

(** [const unreadCount = notifications.filter(n => !n.read).length] *)
Definition unreadCount (w : World) : nat :=
  length (filter (fun n => negb (Notification.read n)) (notifications w)).

(** What the hook returns to the component on a render: the three state
    cells and the derived count (the three callbacks are the operations
    above). *)
Record HookResult : Type := mkHookResult {
  result_notifications : list Notification;
  result_loading : bool;
  result_error : option string;
  result_unreadCount : nat
}.

Definition useNotifications (w : World) : HookResult :=
  mkHookResult (notifications w) (loading w) (error w) (unreadCount w).

(** ** The hook as a transition system *)

(** Everything that can happen to a mounted hook: a call of one of the
    three exposed callbacks, an auth event, a realtime event.  Each carries
    the [user] its closure captured and the network's answer where the
    operation may fetch. *)
Inductive Action : Type :=
| CallLoad (user : option User) (net : Completion Response)
| CallMarkAsRead (user : option User) (ids : list string)
                 (net : Completion Response)
| CallDelete (user : option User) (ids : list string)
             (net : Completion Response)
| AuthEvent (user : option User) (event : string)
            (net : Completion Response)
| RealtimeEvent (payload : Payload).

Definition perform (a : Action) : Eff unit :=
  match a with
  | CallLoad user net => loadNotifications user net
  | CallMarkAsRead user ids net => markAsRead user ids net
  | CallDelete user ids net => deleteNotifications user ids net
  | AuthEvent user event net => onAuthStateChange user event net
  | RealtimeEvent payload => onPostgresChanges payload
  end.

Definition step (w : World) (a : Action) : World := run (perform a) w.

Definition steps (w : World) (acts : list Action) : World :=
  fold_left step acts w.

(** A world is reachable when some history of actions leads to it from the
    initial render. *)
Inductive Reachable : World -> Prop :=
| reach_initial : Reachable initial
| reach_step w a : Reachable w -> Reachable (step w a).

(** ** Specification-side notions *)

(** A success response of the list endpoint: the promise resolves, the
    status is 2xx and the body parses to an array. *)
Definition success_payload (net : Completion Response)
    : option (list Notification) :=
  match net with
  | Normal r =>
      if ok r then
        match json r with
        | Normal (JsonArray data) => Some data
        | _ => None
        end
      else None
  | Abrupt _ => None
  end.

(** The content type announces JSON. *)
Definition announces_json (r : Response) : Prop :=
  exists ct, content_type r = Some ct /\ includes ct "application/json" = true.

(** The first non-empty candidate among the optional fields of a structured
    error body, else the fallback. *)
Inductive FirstAvailable : list (option string) -> string -> string -> Prop :=
| fa_nil fallback : FirstAvailable [] fallback fallback
| fa_here s rest fallback :
    s <> "" -> FirstAvailable (Some s :: rest) fallback s
| fa_skip_empty rest fallback m :
    FirstAvailable rest fallback m ->
    FirstAvailable (Some "" :: rest) fallback m
| fa_skip_absent rest fallback m :
    FirstAvailable rest fallback m ->
    FirstAvailable (None :: rest) fallback m.

(** The message of whatever was thrown, else the fallback. *)
Inductive ThrownMessage : Thrown -> string -> string -> Prop :=
| tm_error m fallback : ThrownMessage (JsError m) fallback m
| tm_other fallback : ThrownMessage JsNonError fallback fallback.

Definition load_fallback : string :=
  "Erreur lors de la récupération des notifications".

(** The most specific message available for a failed load, by kind of
    failure: a transport failure reports its own message; a structured error
    body reports [details], else [error]; an unstructured one its raw text;
    a body that cannot be read reports the reading error. *)
Inductive MostSpecific : Completion Response -> string -> Prop :=
| ms_transport e m :
    ThrownMessage e load_fallback m ->
    MostSpecific (Abrupt e) m
| ms_structured r v m :
    ok r = false -> announces_json r -> json r = Normal v ->
    FirstAvailable
      [ApiError.details (as_ApiError v); ApiError.error (as_ApiError v)]
      load_fallback m ->
    MostSpecific (Normal r) m
| ms_unparsable r e :
    ok r = false -> announces_json r -> json r = Abrupt e ->
    MostSpecific (Normal r) "Erreur inconnue"
| ms_unstructured r t m :
    ok r = false -> ~ announces_json r -> text r = Normal t ->
    FirstAvailable [Some t] "Erreur serveur: réponse non-JSON" m ->
    MostSpecific (Normal r) m
| ms_unreadable r e m :
    ok r = false -> ~ announces_json r -> text r = Abrupt e ->
    ThrownMessage e load_fallback m ->
    MostSpecific (Normal r) m
| ms_bad_success_body r e m :
    ok r = true -> json r = Abrupt e ->
    ThrownMessage e load_fallback m ->
    MostSpecific (Normal r) m
| ms_not_an_array r body :
    ok r = true -> json r = Normal (JsonObject body) ->
    MostSpecific (Normal r) "data.map is not a function".

(** Number of unread items, by recursion on the list. *)
Fixpoint count_unread (l : list Notification) : nat :=
  match l with
  | [] => 0
  | n :: rest =>
      if Notification.read n then count_unread rest
      else S (count_unread rest)
  end.

(** [l1] keeps its order inside [l2]: it is obtained by dropping elements. *)
Inductive Subsequence {A : Type} : list A -> list A -> Prop :=
| subseq_nil : Subsequence [] []
| subseq_keep x l1 l2 : Subsequence l1 l2 -> Subsequence (x :: l1) (x :: l2)
| subseq_drop x l1 l2 : Subsequence l1 l2 -> Subsequence l1 (x :: l2).

(** ** Sample data *)

Definition sample (i : string) (r : bool) : Notification :=
  Notification.make i "u1" "invite" ("message " ++ i) r None 1000 1000.

Definition alice : User := mkUser "u1".

Definition two_unread : list Notification :=
  [sample "1" false; sample "2" false].

Definition ok_response (data : list Notification) : Response :=
  mkResponse 200 (Some "application/json")
             (Abrupt (JsError "body used")) (Normal (JsonArray data)).

Definition html_500 : Response :=
  mkResponse 500 (Some "text/html")
             (Normal "<html>boom</html>")
             (Abrupt (JsError "Unexpected token <")).

Definition json_404 : Response :=
  mkResponse 404 (Some "application/json; charset=utf-8")
             (Normal "{}")
             (Normal (JsonObject (ApiError.make (Some "Not found")
                                                (Some "no such row")))).

(** The state after the first load has returned two unread items. *)
Definition loaded : World :=
  step initial (CallLoad (Some alice) (Normal (ok_response two_unread))).

(** Realtime payloads carrying [n] as both row images. *)
Definition insert_of (n : Notification) : Payload :=
  Payload.make "INSERT" n n.

Definition update_of (n : Notification) : Payload :=
  Payload.make "UPDATE" n n.

Definition delete_of (n : Notification) : Payload :=
  Payload.make "DELETE" n n.

(** Unfold the monadic plumbing and the setters, leaving the tests on the
    inputs ([ok], the content type, the body) in place. *)
Ltac run_eff :=
  cbv beta iota zeta delta
    [run completion try_finally try_catch bind fetch await throw ret
     load_error_branch mutation_error_branch as_array
     updateNotifications setNotifications setLoading setError
     toast_error toast_info toast console_log console_error console_write
     notifications loading error toasts requests console fst snd negb
     new_Error message_or].

(** What a failed load leaves behind: the list as it was, the flag
    cleared, the message recorded and shown once. *)
Definition load_failed (w : World) (m : string) (out : Completion unit * World)
    : Prop :=
  fst out = Normal tt /\
  notifications (snd out) = notifications w /\
  loading (snd out) = false /\
  error (snd out) = Some m /\
  toasts (snd out) = (toasts w ++ [ToastError m])%list.

(** A mutation request that fails: the promise rejects, or the response
    is not 2xx. *)
Definition mutation_fails (net : Completion Response) : Prop :=
  match net with
  | Abrupt _ => True
  | Normal r => ~ (200 <= status r <= 299)%Z
  end.

(** ** The mount effect *)

(** The arguments of [supabase.channel(name).on('postgres_changes', {...})]. *)
Record Channel : Type := mkChannel {
  channel_name : string;
  channel_event : string;
  channel_schema : string;
  channel_table : string;
  channel_filter : string
}.

(** The calls that the effect and its cleanup make on the supabase client:
    registering the auth listener, subscribing a channel, and the two
    matching [unsubscribe()] calls. *)
Inductive SupabaseCall : Type :=
| AuthListen
| AuthUnsubscribe
| ChannelSubscribe (c : Channel)
| ChannelUnsubscribe (c : Channel).

(** What the cleanup closure captures: whether [authListener] is defined,
    and [realtimeSubscription] ([None] is [null]). *)
Record EffectHandles : Type := mkEffectHandles {
  authListener : bool;
  realtimeSubscription : option Channel
}.

(** The hook's world together with the log of supabase calls. *)
Record Host : Type := mkHost {
  world : World;
  supabase : list SupabaseCall
}.

(** The body of [useEffect] (lines 176-244) for the [user] of this render.
    [listening] tells whether [onAuthStateChange] returned its [data]
    object; the load that the effect starts is run here to its settlement
    [net]. *)
Definition useEffect_setup
    (user : option User) (net : Completion Response) (listening : bool)
    (h : Host) : Host * EffectHandles :=
  let w1 :=
    run (console_log "[useNotifications] Effet de chargement initial" ;;
         loadNotifications user net) (world h) in
  let calls1 := (supabase h ++ [AuthListen])%list in
  match user with
  | Some u =>
      let w2 :=
        run (console_log "[useNotifications] Configuration de l'abonnement temps réel pour l'utilisateur:")
            w1 in
      let c := mkChannel ("notifications:" ++ user_id u) "*" "public"
                         "Notification" ("userId=eq." ++ user_id u) in
      (mkHost w2 (calls1 ++ [ChannelSubscribe c])%list,
       mkEffectHandles listening (Some c))
  | None => (mkHost w1 calls1, mkEffectHandles listening None)
  end.

(** The function that the effect returns (lines 246-252). *)
Definition useEffect_cleanup (handles : EffectHandles) (h : Host) : Host :=
  let w1 :=
    run (console_log "[useNotifications] Nettoyage de l'effet") (world h) in
  let calls1 :=
    if authListener handles
    then (supabase h ++ [AuthUnsubscribe])%list
    else supabase h in
  let calls2 :=
    match realtimeSubscription handles with
    | Some c => (calls1 ++ [ChannelUnsubscribe c])%list
    | None => calls1
    end in
  mkHost w1 calls2.

(** ** Further specification-side notions *)

(** The call that gives back what a subscribing call acquired. *)
Definition release (c : SupabaseCall) : SupabaseCall :=
  match c with
  | AuthListen => AuthUnsubscribe
  | ChannelSubscribe ch => ChannelUnsubscribe ch
  | other => other
  end.

(** Actions that run [loadNotifications]: a call of it, and the SIGNED_IN
    auth event. *)
Definition starts_load (a : Action) : bool :=
  match a with
  | CallLoad _ _ => true
  | AuthEvent _ event _ => String.eqb event "SIGNED_IN"
  | _ => false
  end.

(** Actions that can bring a new item into the list: a load and a realtime
    INSERT. *)
Definition may_add_items (a : Action) : bool :=
  starts_load a ||
  match a with
  | RealtimeEvent p => String.eqb (Payload.eventType p) "INSERT"
  | _ => false
  end.

(** The message a failed mutation shows.  [body_fallback] is the text used
    when the error body carries neither [details] nor [error];
    [thrown_fallback] the one used when what was thrown is not an [Error]. *)
Inductive MutationMessage (body_fallback thrown_fallback : string)
  : Completion Response -> string -> Prop :=
| mm_transport e m :
    ThrownMessage e thrown_fallback m ->
    MutationMessage body_fallback thrown_fallback (Abrupt e) m
| mm_structured r v m :
    ok r = false -> json r = Normal v ->
    FirstAvailable
      [ApiError.details (as_ApiError v); ApiError.error (as_ApiError v)]
      body_fallback m ->
    MutationMessage body_fallback thrown_fallback (Normal r) m
| mm_unparsable r e m :
    ok r = false -> json r = Abrupt e ->
    ThrownMessage e thrown_fallback m ->
    MutationMessage body_fallback thrown_fallback (Normal r) m.

(** The three requests the hook can make. *)
Definition hook_request (q : Request) : Prop :=
  q = mkRequest "/api/notifications" "GET" None \/
  exists ids,
    q = mkRequest ("/api/notifications/" ++ join "," ids) "PATCH" None \/
    q = mkRequest ("/api/notifications/" ++ join "," ids) "DELETE"
                  (Some "include").

(** The log [l2] extends [l1] by at most one entry. *)
Definition at_most_one_more {A : Type} (l1 l2 : list A) : Prop :=
  l2 = l1 \/ exists x, l2 = (l1 ++ [x])%list.

(** Sample data for the mount effect. *)
Definition bob : User := mkUser "u2".

Definition fresh_host : Host := mkHost initial [].

(** The updaters that [markAsRead] (lines 120-126) and
    [deleteNotifications] (lines 162-164) pass to [setNotifications], named
    for the statements below. *)
Definition marked (ids : list string) (prev : list Notification)
    : list Notification :=
  map (fun notification =>
         if array_includes ids (Notification.id notification)
         then Notification.with_read notification true
         else notification)
      prev.

Definition without (ids : list string) (prev : list Notification)
    : list Notification :=
  filter (fun notification =>
            negb (array_includes ids (Notification.id notification)))
         prev.

(** What one action may do to the flags and the logs, going from [w] to
    [w']: at most one notice and one request (to an endpoint of the hook)
    are added; [loading] is cleared or, with [error], kept; [error] is
    kept, cleared, or set to a message that is shown at the same time. *)
Definition step_summary (w w' : World) : Prop :=
  at_most_one_more (toasts w) (toasts w') /\
  (requests w' = requests w \/
   exists q, hook_request q /\ requests w' = (requests w ++ [q])%list) /\
  (loading w' = false \/ (loading w' = loading w /\ error w' = error w)) /\
  (error w' = error w \/ error w' = None \/
   exists m, error w' = Some m /\
             toasts w' = (toasts w ++ [ToastError m])%list).

(** The channels that a log of supabase calls leaves subscribed: a
    subscription adds its channel, an [unsubscribe()] takes one matching
    channel away. *)
Definition channel_eqb (c1 c2 : Channel) : bool :=
  String.eqb (channel_name c1) (channel_name c2) &&
  String.eqb (channel_event c1) (channel_event c2) &&
  String.eqb (channel_schema c1) (channel_schema c2) &&
  String.eqb (channel_table c1) (channel_table c2) &&
  String.eqb (channel_filter c1) (channel_filter c2).

Fixpoint remove_channel (c : Channel) (live : list Channel) : list Channel :=
  match live with
  | [] => []
  | c' :: rest =>
      if channel_eqb c c' then rest else c' :: remove_channel c rest
  end.

Definition apply_call (live : list Channel) (call : SupabaseCall)
    : list Channel :=
  match call with
  | ChannelSubscribe c => c :: live
  | ChannelUnsubscribe c => remove_channel c live
  | _ => live
  end.

Definition live_channels (calls : list SupabaseCall) : list Channel :=
  fold_left apply_call calls [].

(** The channel that the effect opens for an identity. *)
Definition channel_of (u : User) : Channel :=
  mkChannel ("notifications:" ++ user_id u) "*" "public" "Notification"
            ("userId=eq." ++ user_id u).

(** ** Lemmas on the helpers *)

Lemma truthy_true (v : option string) :
  truthy v = true -> exists s, v = Some s /\ s <> "".
Proof.
  destruct v as [s|]; simpl; [|discriminate].
  intros H. exists s. split; [reflexivity|].
  intros ->. discriminate.
Qed.

Lemma truthy_false (v : option string) :
  truthy v = false -> v = None \/ v = Some "".
Proof.
  destruct v as [s|]; simpl; [|now left].
  intros H. right. apply negb_false_iff, String.eqb_eq in H. now subst.
Qed.

Lemma js_or_first_available (a b : option string) (fallback : string) :
  FirstAvailable [a; b] fallback
    (match js_or (js_or a b) (Some fallback) with Some s => s | None => "" end).
Proof.
  unfold js_or.
  destruct (truthy a) eqn:Ha.
  - rewrite Ha. apply truthy_true in Ha as (s & -> & Hs). now constructor.
  - destruct (truthy b) eqn:Hb.
    + apply truthy_true in Hb as (s & -> & Hs).
      destruct (truthy_false _ Ha) as [-> | ->]; constructor; now constructor.
    + destruct (truthy_false _ Ha) as [-> | ->];
        destruct (truthy_false _ Hb) as [-> | ->];
        repeat constructor.
Qed.

Lemma announces_json_dec (r : Response) :
  (truthy (content_type r) &&
   match content_type r with
   | Some ct => includes ct "application/json"
   | None => false
   end) = true <-> announces_json r.
Proof.
  unfold announces_json. split.
  - destruct (content_type r) as [ct|]; simpl.
    + intros H. apply andb_true_iff in H as [_ H]. now exists ct.
    + discriminate.
  - intros (ct & -> & H). simpl. rewrite H.
    destruct ct; [discriminate H | reflexivity].
Qed.

(** ** Loading *)

Lemma load_rejected (u : User) (e : Thrown) (w : World) :
  exists m, MostSpecific (Abrupt e) m /\
            load_failed w m (loadNotifications (Some u) (Abrupt e) w).
Proof.
  exists (message_or e load_fallback). split.
  - constructor. destruct e; constructor.
  - unfold loadNotifications, load_failed. run_eff. repeat split.
Qed.

Lemma load_not_ok (u : User) (r : Response) (w : World) :
  ok r = false ->
  exists m, MostSpecific (Normal r) m /\
            load_failed w m (loadNotifications (Some u) (Normal r) w).
Proof.
  intros Hok.
  unfold loadNotifications, load_failed. run_eff. rewrite Hok. run_eff.
  destruct (truthy (content_type r) && _) eqn:Hct.
  - apply announces_json_dec in Hct.
    destruct (json r) as [v|e] eqn:Hj; run_eff.
    + eexists. split; [|repeat split].
      eapply ms_structured; eauto using js_or_first_available.
    + eexists. split; [|repeat split].
      eapply ms_unparsable; eauto.
  - assert (Hno : ~ announces_json r).
    { intros H. apply announces_json_dec in H. congruence. }
    destruct (text r) as [t|e] eqn:Ht; run_eff.
    + eexists. split; [|repeat split].
      eapply ms_unstructured; eauto.
      unfold js_or. cbn [ApiError.details ApiError.error].
      destruct (truthy (Some t)) eqn:Htt.
      * rewrite Htt. apply truthy_true in Htt as (s & [= <-] & Hs).
        now constructor.
      * destruct (truthy_false _ Htt) as [[=] | [= ->]].
        cbn. repeat constructor.
    + exists (message_or e load_fallback). split; [|repeat split].
      eapply ms_unreadable; eauto. destruct e; constructor.
Qed.

Lemma load_ok_bad_body (u : User) (r : Response) (w : World) :
  ok r = true ->
  (forall data, json r <> Normal (JsonArray data)) ->
  exists m, MostSpecific (Normal r) m /\
            load_failed w m (loadNotifications (Some u) (Normal r) w).
Proof.
  intros Hok Hbody.
  unfold loadNotifications, load_failed. run_eff. rewrite Hok. run_eff.
  destruct (json r) as [[data|body]|e] eqn:Hj; run_eff.
  - now destruct (Hbody data).
  - eexists. split; [|repeat split]. eapply ms_not_an_array; eauto.
  - exists (message_or e load_fallback). split; [|repeat split].
    eapply ms_bad_success_body; eauto. destruct e; constructor.
Qed.

Lemma load_ok_array (u : User) (r : Response) (data : list Notification)
    (w : World) :
  ok r = true -> json r = Normal (JsonArray data) ->
  let out := loadNotifications (Some u) (Normal r) w in
  fst out = Normal tt /\
  notifications (snd out) = data /\
  loading (snd out) = false /\
  error (snd out) = None /\
  toasts (snd out) = toasts w.
Proof.
  intros Hok Hj.
  unfold loadNotifications. run_eff. rewrite Hok. run_eff. rewrite Hj.
  run_eff. repeat split.
Qed.

(** C1. With an identity bound, [loadNotifications] always completes with
    [loading] cleared; on a success response (2xx, array body) the list is
    replaced by the returned sequence; on any failure the list is left as it
    was and [error] holds the most specific message available, which is also
    the one shown to the user. *)
Theorem load_replaces_or_records (u : User) (net : Completion Response)
    (w : World) :
  let w' := run (loadNotifications (Some u) net) w in
  completion (loadNotifications (Some u) net) w = Normal tt /\
  loading w' = false /\
  match success_payload net with
  | Some data => notifications w' = data
  | None =>
      notifications w' = notifications w /\
      exists m, MostSpecific net m /\
                error w' = Some m /\
                toasts w' = (toasts w ++ [ToastError m])%list
  end.
Proof.
  unfold run, completion, success_payload.
  destruct net as [r|e].
  - destruct (ok r) eqn:Hok.
    + destruct (json r) as [[data|body]|e] eqn:Hj.
      * destruct (load_ok_array u r data w Hok Hj) as (Hc & Hn & Hl & _).
        auto.
      * destruct (load_ok_bad_body u r w Hok) as (m & Hm & Hc & Hn & Hl & He & Ht).
        { intros data. congruence. }
        eauto 10.
      * destruct (load_ok_bad_body u r w Hok) as (m & Hm & Hc & Hn & Hl & He & Ht).
        { intros data. congruence. }
        eauto 10.
    + destruct (load_not_ok u r w Hok) as (m & Hm & Hc & Hn & Hl & He & Ht).
      eauto 10.
  - destruct (load_rejected u e w) as (m & Hm & Hc & Hn & Hl & He & Ht).
    eauto 10.
Qed.

(** ** Lists *)

Lemma array_includes_In (ids : list string) (x : string) :
  array_includes ids x = true <-> In x ids.
Proof.
  unfold array_includes. rewrite existsb_exists. split.
  - intros (y & Hy & Heq). apply String.eqb_eq in Heq. now subst.
  - intros H. exists x. split; [assumption | apply String.eqb_refl].
Qed.

Lemma array_includes_not_In (ids : list string) (x : string) :
  array_includes ids x = false <-> ~ In x ids.
Proof.
  rewrite <- array_includes_In. destruct (array_includes ids x); split;
    congruence.
Qed.

Lemma filter_Subsequence {A : Type} (f : A -> bool) (l : list A) :
  Subsequence (filter f l) l.
Proof.
  induction l as [|x l IH]; simpl.
  - constructor.
  - destruct (f x); now constructor.
Qed.

Lemma filter_none {A : Type} (f : A -> bool) (l : list A) :
  (forall x, In x l -> f x = true) -> filter f l = l.
Proof.
  induction l as [|x l IH]; simpl; intros H; [reflexivity|].
  rewrite (H x (or_introl eq_refl)). f_equal. apply IH.
  intros y Hy. apply H. now right.
Qed.

Lemma filter_twice {A : Type} (f : A -> bool) (l : list A) :
  filter f (filter f l) = filter f l.
Proof.
  apply filter_none. intros x Hx. now apply filter_In in Hx.
Qed.

Lemma map_unchanged {A : Type} (f : A -> A) (l : list A) :
  (forall x, In x l -> f x = x) -> map f l = l.
Proof.
  induction l as [|x l IH]; simpl; intros H; [reflexivity|].
  rewrite (H x (or_introl eq_refl)). f_equal. apply IH.
  intros y Hy. apply H. now right.
Qed.

Lemma count_unread_filter (l : list Notification) :
  length (filter (fun n => negb (Notification.read n)) l) = count_unread l.
Proof.
  induction l as [|n l IH]; simpl; [reflexivity|].
  destruct (Notification.read n); simpl; now rewrite IH.
Qed.

Lemma ok_2xx (r : Response) :
  ok r = true <-> (200 <= status r <= 299)%Z.
Proof.
  unfold ok. rewrite andb_true_iff, !Z.leb_le. reflexivity.
Qed.

Lemma steps_cons (w : World) (a : Action) (acts : list Action) :
  steps w (a :: acts) = steps (step w a) acts.
Proof. reflexivity. Qed.

(** ** Realtime events *)

Lemma insert_event (p : Payload) (w : World) :
  Payload.eventType p = "INSERT" ->
  let w' := step w (RealtimeEvent p) in
  notifications w' = Payload.new p :: notifications w /\
  loading w' = loading w /\ error w' = error w /\
  toasts w' =
    (toasts w ++ [ToastInfo (Notification.message (Payload.new p))])%list /\
  requests w' = requests w.
Proof.
  intros H. unfold step, perform, onPostgresChanges. rewrite H.
  change ("INSERT" =? "INSERT") with true. run_eff. repeat split.
Qed.

Lemma update_event (p : Payload) (w : World) :
  Payload.eventType p = "UPDATE" ->
  let w' := step w (RealtimeEvent p) in
  notifications w' =
    map (fun n => if Notification.id n =? Notification.id (Payload.new p)
                  then Payload.new p else n)
        (notifications w) /\
  loading w' = loading w /\ error w' = error w /\
  toasts w' = toasts w /\ requests w' = requests w.
Proof.
  intros H. unfold step, perform, onPostgresChanges. rewrite H.
  change ("UPDATE" =? "INSERT") with false.
  change ("UPDATE" =? "UPDATE") with true. run_eff. repeat split.
Qed.

Lemma delete_event (p : Payload) (w : World) :
  Payload.eventType p = "DELETE" ->
  let w' := step w (RealtimeEvent p) in
  notifications w' =
    filter (fun n => negb (Notification.id n =? Notification.id (Payload.old p)))
           (notifications w) /\
  loading w' = loading w /\ error w' = error w /\
  toasts w' = toasts w /\ requests w' = requests w.
Proof.
  intros H. unfold step, perform, onPostgresChanges. rewrite H.
  change ("DELETE" =? "INSERT") with false.
  change ("DELETE" =? "UPDATE") with false.
  change ("DELETE" =? "DELETE") with true. run_eff. repeat split.
Qed.

Lemma insert_events (ps : list Payload) (w : World) :
  Forall (fun q => Payload.eventType q = "INSERT") ps ->
  let w' := steps w (map RealtimeEvent ps) in
  notifications w' = (rev (map Payload.new ps) ++ notifications w)%list /\
  toasts w' =
    (toasts w ++
     map (fun q => ToastInfo (Notification.message (Payload.new q))) ps)%list.
Proof.
  intros Hall. revert w.
  induction Hall as [|p ps Hp _ IH]; intros w.
  - simpl. now rewrite app_nil_r.
  - cbv zeta. cbn [map rev]. rewrite steps_cons.
    destruct (IH (step w (RealtimeEvent p))) as [Hn Ht].
    destruct (insert_event p w Hp) as (Hn1 & _ & _ & Ht1 & _).
    rewrite Hn, Ht, Hn1, Ht1, <- !app_assoc. split; reflexivity.
Qed.

(** C2. Along any sequence of INSERT events, each event puts its record at
    the head of the list, makes the list exactly one longer and shows an
    informational notice with the record's message; nothing is required of
    the ids, so a record whose id is already present is added again. *)
Theorem insert_prepends_and_notifies
    (ps : list Payload) (p : Payload) (w : World) :
  Forall (fun q => Payload.eventType q = "INSERT") ps ->
  Payload.eventType p = "INSERT" ->
  let w1 := steps w (map RealtimeEvent ps) in
  let w2 := step w1 (RealtimeEvent p) in
  notifications w1 = (rev (map Payload.new ps) ++ notifications w)%list /\
  length (notifications w1) = length ps + length (notifications w) /\
  notifications w2 = Payload.new p :: notifications w1 /\
  length (notifications w2) = S (length (notifications w1)) /\
  toasts w2 =
    (toasts w1 ++ [ToastInfo (Notification.message (Payload.new p))])%list.
Proof.
  intros Hps Hp w1 w2.
  destruct (insert_events ps w Hps) as [Hn _]. fold w1 in Hn.
  destruct (insert_event p w1 Hp) as (Hn2 & _ & _ & Ht2 & _). fold w2 in Hn2, Ht2.
  repeat split; try assumption.
  - rewrite Hn, length_app, length_rev, length_map. reflexivity.
  - rewrite Hn2. reflexivity.
Qed.

Lemma insert_prepends_and_notifies_witness :
  Forall (fun q => Payload.eventType q = "INSERT")
         [insert_of (sample "3" false)] /\
  Payload.eventType (insert_of (sample "1" true)) = "INSERT" /\
  notifications
    (steps loaded [RealtimeEvent (insert_of (sample "3" false));
                   RealtimeEvent (insert_of (sample "1" true))]) =
  [sample "1" true; sample "3" false; sample "1" false; sample "2" false].
Proof.
  split; [repeat constructor | split; [reflexivity|]].
  destruct (insert_prepends_and_notifies
              [insert_of (sample "3" false)] (insert_of (sample "1" true))
              loaded) as (H1 & _ & H2 & _).
  - repeat constructor.
  - reflexivity.
  - cbv zeta in H1, H2. simpl map in H1, H2.
    change (steps loaded [RealtimeEvent (insert_of (sample "3" false));
                   RealtimeEvent (insert_of (sample "1" true))])
      with (step (steps loaded [RealtimeEvent (insert_of (sample "3" false))])
                 (RealtimeEvent (insert_of (sample "1" true)))).
    rewrite H2, H1. reflexivity.
Defined.

(** C5. An UPDATE event keeps the length of the list; at every position an
    item carrying the pushed id is replaced by the pushed row and any other
    item is kept as it is; when no item carries that id the list is
    unchanged, so nothing is inserted.  The other state cells and the
    notices are untouched. *)
Theorem update_replaces_in_place (p : Payload) (w : World) :
  Payload.eventType p = "UPDATE" ->
  let w' := step w (RealtimeEvent p) in
  length (notifications w') = length (notifications w) /\
  (forall i n, nth_error (notifications w) i = Some n ->
     (Notification.id n = Notification.id (Payload.new p) ->
      nth_error (notifications w') i = Some (Payload.new p)) /\
     (Notification.id n <> Notification.id (Payload.new p) ->
      nth_error (notifications w') i = Some n)) /\
  ((forall n, In n (notifications w) ->
      Notification.id n <> Notification.id (Payload.new p)) ->
   notifications w' = notifications w) /\
  loading w' = loading w /\ error w' = error w /\ toasts w' = toasts w.
Proof.
  intros H w'.
  destruct (update_event p w H) as (Hn & Hl & He & Ht & _).
  fold w' in Hn, Hl, He, Ht. rewrite Hn.
  repeat apply conj; try assumption.
  - apply length_map.
  - intros i n Hi. rewrite nth_error_map, Hi. simpl. split; intros Hid.
    + apply String.eqb_eq in Hid. now rewrite Hid.
    + apply String.eqb_neq in Hid. now rewrite Hid.
  - intros Habsent. apply map_unchanged. intros n Hin.
    apply Habsent, String.eqb_neq in Hin. now rewrite Hin.
Qed.

Lemma update_replaces_in_place_witness :
  Payload.eventType (update_of (sample "1" true)) = "UPDATE" /\
  nth_error
    (notifications (step loaded (RealtimeEvent (update_of (sample "1" true)))))
    0 = Some (sample "1" true) /\
  nth_error
    (notifications (step loaded (RealtimeEvent (update_of (sample "1" true)))))
    1 = Some (sample "2" false).
Proof.
  split; [reflexivity|].
  destruct (update_replaces_in_place (update_of (sample "1" true)) loaded
              eq_refl) as (_ & Hnth & _).
  split.
  - apply (Hnth 0 (sample "1" false) eq_refl). reflexivity.
  - apply (Hnth 1 (sample "2" false) eq_refl). discriminate.
Defined.

(** C6. A DELETE event keeps exactly the items whose id differs from the
    deleted row's id, in their order; when no item carries that id the list
    is unchanged; delivering the same event a second time changes nothing
    that the hook exposes. *)
Theorem delete_event_idempotent (p : Payload) (w : World) :
  Payload.eventType p = "DELETE" ->
  let w1 := step w (RealtimeEvent p) in
  let w2 := step w1 (RealtimeEvent p) in
  (forall n, In n (notifications w1) <->
             In n (notifications w) /\
             Notification.id n <> Notification.id (Payload.old p)) /\
  Subsequence (notifications w1) (notifications w) /\
  ((forall n, In n (notifications w) ->
      Notification.id n <> Notification.id (Payload.old p)) ->
   notifications w1 = notifications w) /\
  useNotifications w2 = useNotifications w1 /\
  toasts w2 = toasts w1 /\ requests w2 = requests w1.
Proof.
  intros H w1 w2.
  destruct (delete_event p w H) as (Hn & Hl & He & Ht & Hr).
  destruct (delete_event p w1 H) as (Hn2 & Hl2 & He2 & Ht2 & Hr2).
  fold w1 in Hn, Hl, He, Ht, Hr. fold w2 in Hn2, Hl2, He2, Ht2, Hr2.
  assert (Hsame : notifications w2 = notifications w1).
  { rewrite Hn2, Hn. apply filter_twice. }
  repeat apply conj; try assumption.
  - intros n. rewrite Hn, filter_In, negb_true_iff, String.eqb_neq.
    reflexivity.
  - rewrite Hn. apply filter_Subsequence.
  - intros Habsent. rewrite Hn. apply filter_none. intros n Hin.
    now apply negb_true_iff, String.eqb_neq, Habsent.
  - unfold useNotifications, unreadCount. now rewrite Hsame, Hl2, He2.
Qed.

Lemma delete_event_idempotent_witness :
  Payload.eventType (delete_of (sample "1" false)) = "DELETE" /\
  useNotifications
    (steps loaded [RealtimeEvent (delete_of (sample "1" false));
                   RealtimeEvent (delete_of (sample "1" false))]) =
  useNotifications (step loaded (RealtimeEvent (delete_of (sample "1" false)))).
Proof.
  split; [reflexivity|].
  apply (delete_event_idempotent (delete_of (sample "1" false)) loaded eq_refl).
Defined.

(** ** Mutations *)

Lemma markAsRead_ok (u : User) (ids : list string) (r : Response) (w : World) :
  ok r = true ->
  let out := markAsRead (Some u) ids (Normal r) w in
  fst out = Normal tt /\
  notifications (snd out) =
    map (fun n => if array_includes ids (Notification.id n)
                  then Notification.with_read n true else n)
        (notifications w) /\
  loading (snd out) = loading w /\ error (snd out) = error w /\
  toasts (snd out) = toasts w.
Proof.
  intros Hok. unfold markAsRead. run_eff. rewrite Hok. run_eff.
  repeat split.
Qed.

Lemma deleteNotifications_ok
    (u : User) (ids : list string) (r : Response) (w : World) :
  ok r = true ->
  let out := deleteNotifications (Some u) ids (Normal r) w in
  fst out = Normal tt /\
  notifications (snd out) =
    filter (fun n => negb (array_includes ids (Notification.id n)))
           (notifications w) /\
  loading (snd out) = loading w /\ error (snd out) = error w /\
  toasts (snd out) = toasts w.
Proof.
  intros Hok. unfold deleteNotifications. run_eff. rewrite Hok. run_eff.
  repeat split.
Qed.

(** C3. After a [markAsRead(ids)] that the server acknowledges with a 2xx
    status, the list has the same length and the same ids in the same
    order; at every position an item whose id is in [ids] is the same item
    with [read] set, and an item whose id is not in [ids] is the very same
    record; hence every item of the result whose id is in [ids] is read. *)
Theorem markAsRead_marks_exactly
    (u : User) (ids : list string) (r : Response) (w : World) :
  (200 <= status r <= 299)%Z ->
  let w' := run (markAsRead (Some u) ids (Normal r)) w in
  length (notifications w') = length (notifications w) /\
  map Notification.id (notifications w') =
    map Notification.id (notifications w) /\
  (forall i n, nth_error (notifications w) i = Some n ->
     (In (Notification.id n) ids ->
      nth_error (notifications w') i = Some (Notification.with_read n true)) /\
     (~ In (Notification.id n) ids ->
      nth_error (notifications w') i = Some n)) /\
  (forall n', In n' (notifications w') ->
     In (Notification.id n') ids -> Notification.read n' = true).
Proof.
  intros Hst w'. apply ok_2xx in Hst.
  destruct (markAsRead_ok u ids r w Hst) as (_ & Hn & _).
  change (notifications w' = map
    (fun n => if array_includes ids (Notification.id n)
              then Notification.with_read n true else n) (notifications w))
    in Hn.
  rewrite Hn. repeat apply conj.
  - apply length_map.
  - rewrite map_map. apply map_ext. intros n.
    now destruct (array_includes ids (Notification.id n)).
  - intros i n Hi. rewrite nth_error_map, Hi. simpl. split; intros Hin.
    + apply array_includes_In in Hin. now rewrite Hin.
    + apply array_includes_not_In in Hin. now rewrite Hin.
  - intros n' Hin' Hid. apply in_map_iff in Hin' as (n & <- & _).
    destruct (array_includes ids (Notification.id n)) eqn:Hinc.
    + reflexivity.
    + apply array_includes_not_In in Hinc. contradiction.
Qed.

Lemma markAsRead_marks_exactly_witness :
  (200 <= status (ok_response []) <= 299)%Z /\
  nth_error
    (notifications
       (run (markAsRead (Some alice) ["2"; "9"] (Normal (ok_response [])))
            loaded)) 1 =
  Some (sample "2" true).
Proof.
  split; [simpl; lia|].
  destruct (markAsRead_marks_exactly alice ["2"; "9"] (ok_response []) loaded)
    as (_ & _ & Hnth & _).
  - simpl; lia.
  - apply (Hnth 1 (sample "2" false) eq_refl). simpl. auto.
Defined.

(** C4. After a [deleteNotifications(ids)] that the server acknowledges
    with a 2xx status, no item of the list has its id in [ids], every item
    whose id is not in [ids] is still there, and the survivors stand in the
    order they had. *)
Theorem deleteNotifications_removes_exactly
    (u : User) (ids : list string) (r : Response) (w : World) :
  (200 <= status r <= 299)%Z ->
  let w' := run (deleteNotifications (Some u) ids (Normal r)) w in
  (forall n, In n (notifications w') -> ~ In (Notification.id n) ids) /\
  (forall n, In n (notifications w) -> ~ In (Notification.id n) ids ->
             In n (notifications w')) /\
  Subsequence (notifications w') (notifications w).
Proof.
  intros Hst w'. apply ok_2xx in Hst.
  destruct (deleteNotifications_ok u ids r w Hst) as (_ & Hn & _).
  change (notifications w' = filter
    (fun n => negb (array_includes ids (Notification.id n))) (notifications w))
    in Hn.
  rewrite Hn. repeat apply conj.
  - intros n Hin. apply filter_In in Hin as [_ Hin].
    now apply negb_true_iff, array_includes_not_In in Hin.
  - intros n Hin Hid. apply filter_In. split; [assumption|].
    now apply negb_true_iff, array_includes_not_In.
  - apply filter_Subsequence.
Qed.

Lemma deleteNotifications_removes_exactly_witness :
  (200 <= status (ok_response []) <= 299)%Z /\
  In (sample "2" false)
     (notifications
        (run (deleteNotifications (Some alice) ["1"; "9"]
                                  (Normal (ok_response [])))
             loaded)).
Proof.
  split; [simpl; lia|].
  destruct (deleteNotifications_removes_exactly alice ["1"; "9"]
              (ok_response []) loaded) as (_ & Hkept & _).
  - simpl; lia.
  - apply Hkept.
    + vm_compute. right. left. reflexivity.
    + simpl. intros [H | [H | []]]; discriminate H.
Defined.

Lemma mutation_fails_not_ok (r : Response) :
  mutation_fails (Normal r) -> ok r = false.
Proof.
  simpl. intros H. destruct (ok r) eqn:Hok; [|reflexivity].
  apply ok_2xx in Hok. contradiction.
Qed.

Lemma markAsRead_failed
    (u : User) (ids : list string) (net : Completion Response) (w : World) :
  mutation_fails net ->
  let out := markAsRead (Some u) ids net w in
  fst out = Normal tt /\
  notifications (snd out) = notifications w /\
  loading (snd out) = loading w /\ error (snd out) = error w /\
  exists m, toasts (snd out) = (toasts w ++ [ToastError m])%list.
Proof.
  intros Hfail. unfold markAsRead. destruct net as [r|e].
  - apply mutation_fails_not_ok in Hfail. run_eff. rewrite Hfail. run_eff.
    destruct (json r) as [v|e]; run_eff; repeat apply conj;
      try reflexivity; eexists; reflexivity.
  - run_eff. repeat apply conj; try reflexivity. eexists; reflexivity.
Qed.

Lemma deleteNotifications_failed
    (u : User) (ids : list string) (net : Completion Response) (w : World) :
  mutation_fails net ->
  let out := deleteNotifications (Some u) ids net w in
  fst out = Normal tt /\
  notifications (snd out) = notifications w /\
  loading (snd out) = loading w /\ error (snd out) = error w /\
  exists m, toasts (snd out) = (toasts w ++ [ToastError m])%list.
Proof.
  intros Hfail. unfold deleteNotifications. destruct net as [r|e].
  - apply mutation_fails_not_ok in Hfail. run_eff. rewrite Hfail. run_eff.
    destruct (json r) as [v|e]; run_eff; repeat apply conj;
      try reflexivity; eexists; reflexivity.
  - run_eff. repeat apply conj; try reflexivity. eexists; reflexivity.
Qed.

(** C9. When the request of [markAsRead] or of [deleteNotifications] fails
    (the promise rejects, or the status is not 2xx), the operation still
    completes normally, the list is as it was, exactly one failure notice is
    shown, and [error] (like [loading]) keeps the value it had: only a load
    records its failure there. *)
Theorem failed_mutation_is_transient
    (u : User) (ids : list string) (net : Completion Response) (w : World) :
  mutation_fails net ->
  (let w' := run (markAsRead (Some u) ids net) w in
   completion (markAsRead (Some u) ids net) w = Normal tt /\
   notifications w' = notifications w /\
   error w' = error w /\ loading w' = loading w /\
   exists m, toasts w' = (toasts w ++ [ToastError m])%list) /\
  (let w' := run (deleteNotifications (Some u) ids net) w in
   completion (deleteNotifications (Some u) ids net) w = Normal tt /\
   notifications w' = notifications w /\
   error w' = error w /\ loading w' = loading w /\
   exists m, toasts w' = (toasts w ++ [ToastError m])%list).
Proof.
  intros Hfail. split; cbv zeta; unfold run, completion.
  - destruct (markAsRead_failed u ids net w Hfail) as (Hc & Hn & Hl & He & Ht).
    auto.
  - destruct (deleteNotifications_failed u ids net w Hfail)
      as (Hc & Hn & Hl & He & Ht).
    auto.
Qed.

Lemma failed_mutation_is_transient_witness :
  mutation_fails (Abrupt (JsError "Failed to fetch")) /\
  notifications
    (run (markAsRead (Some alice) ["1"; "2"]
                     (Abrupt (JsError "Failed to fetch"))) loaded) =
    notifications loaded /\
  error
    (run (markAsRead (Some alice) ["1"; "2"]
                     (Abrupt (JsError "Failed to fetch"))) loaded) =
    error loaded.
Proof.
  split; [exact I|].
  destruct (failed_mutation_is_transient alice ["1"; "2"]
              (Abrupt (JsError "Failed to fetch")) loaded I)
    as ((_ & Hn & He & _) & _).
  split; [exact Hn | exact He].
Defined.

(** ** The derived count *)

Lemma unreadCount_counts (w : World) :
  unreadCount w = count_unread (notifications w).
Proof. apply count_unread_filter. Qed.

(** C7. In every reachable state the [unreadCount] that the hook returns
    is the number of returned items whose [read] is false; it is a function
    of the list alone, so two reachable states with the same list expose the
    same count, and it stays right after any further action. *)
Theorem unreadCount_is_derived (w : World) :
  Reachable w ->
  result_unreadCount (useNotifications w) =
    count_unread (result_notifications (useNotifications w)) /\
  (forall w', Reachable w' -> notifications w' = notifications w ->
     result_unreadCount (useNotifications w') =
     result_unreadCount (useNotifications w)) /\
  (forall a,
     result_unreadCount (useNotifications (step w a)) =
     count_unread (notifications (step w a))).
Proof.
  intros _. simpl. repeat apply conj.
  - apply unreadCount_counts.
  - intros w' _ Hsame. unfold unreadCount. now rewrite Hsame.
  - intros a. apply unreadCount_counts.
Qed.

Lemma unreadCount_is_derived_witness :
  Reachable loaded /\
  result_unreadCount (useNotifications loaded) = 2.
Proof.
  assert (Hreach : Reachable loaded).
  { unfold loaded. apply reach_step, reach_initial. }
  split; [exact Hreach|].
  rewrite (proj1 (unreadCount_is_derived loaded Hreach)).
  vm_compute. reflexivity.
Defined.

(** ** Auth events *)

(** C10. For every auth event other than SIGNED_IN the handler issues no
    request, shows no notice and leaves [loading] and [error] as they were;
    on SIGNED_OUT the list becomes empty, on any other such event the list
    is unchanged too. *)
Theorem auth_event_frame
    (user : option User) (event : string) (net : Completion Response)
    (w : World) :
  event <> "SIGNED_IN" ->
  let w' := run (onAuthStateChange user event net) w in
  (event = "SIGNED_OUT" -> notifications w' = []) /\
  (event <> "SIGNED_OUT" -> notifications w' = notifications w) /\
  loading w' = loading w /\ error w' = error w /\
  requests w' = requests w /\ toasts w' = toasts w.
Proof.
  intros Hin. unfold onAuthStateChange.
  apply String.eqb_neq in Hin. run_eff. rewrite Hin.
  destruct (String.eqb_spec event "SIGNED_OUT") as [Hout | Hout]; run_eff;
    repeat apply conj; try reflexivity; intros H; congruence.
Qed.

Lemma auth_event_frame_witness :
  "SIGNED_OUT" <> "SIGNED_IN" /\
  notifications
    (run (onAuthStateChange (Some alice) "SIGNED_OUT"
                            (Normal (ok_response two_unread))) loaded) = [] /\
  requests
    (run (onAuthStateChange (Some alice) "SIGNED_OUT"
                            (Normal (ok_response two_unread))) loaded) =
  requests loaded.
Proof.
  assert (Hne : "SIGNED_OUT" <> "SIGNED_IN") by discriminate.
  split; [exact Hne|].
  destruct (auth_event_frame (Some alice) "SIGNED_OUT"
              (Normal (ok_response two_unread)) loaded Hne)
    as (Hout & _ & _ & _ & Hreq & _).
  split; [exact (Hout eq_refl) | exact Hreq].
Defined.

(** ** Unstructured error bodies *)

Lemma length_append (s1 s2 : string) :
  String.length (s1 ++ s2) = String.length s1 + String.length s2.
Proof.
  induction s1 as [|c s1 IH]; simpl; [reflexivity | now rewrite IH].
Qed.

Lemma append_fixed_point (p s : string) : p ++ s = s -> p = "".
Proof.
  intros H. apply (f_equal String.length) in H.
  rewrite length_append in H. destruct p; [reflexivity | simpl in H; lia].
Qed.

(** C8, as first stated, fails: for a 500 response announcing [text/html]
    the recorded error is the raw body text alone, with no prefix before
    it. *)
Lemma unstructured_error_has_no_prefix :
  ok html_500 = false /\
  ~ announces_json html_500 /\
  text html_500 = Normal "<html>boom</html>" /\
  ~ exists prefix,
      prefix <> "" /\
      error (run (loadNotifications (Some alice) (Normal html_500)) initial) =
      Some (prefix ++ "<html>boom</html>").
Proof.
  repeat apply conj.
  - reflexivity.
  - intros (ct & Hct & Hinc). injection Hct as <-. discriminate Hinc.
  - reflexivity.
  - intros (prefix & Hne & Herr).
    assert (Hraw :
      error (run (loadNotifications (Some alice) (Normal html_500)) initial) =
      Some "<html>boom</html>") by (vm_compute; reflexivity).
    rewrite Hraw in Herr. injection Herr as Herr. symmetry in Herr.
    now apply append_fixed_point in Herr.
Qed.

(** C8, amended. When a load receives a non-2xx response whose content
    type does not announce JSON and whose body reads as text [t], the
    message recorded in [error] and shown to the user is [t] itself when [t]
    is not empty, and the generic message alone when [t] is empty; the list
    is left as it was. *)
Theorem unstructured_error_reports_raw_text
    (u : User) (r : Response) (t : string) (w : World) :
  ~ (200 <= status r <= 299)%Z ->
  ~ announces_json r ->
  text r = Normal t ->
  let w' := run (loadNotifications (Some u) (Normal r)) w in
  (t <> "" ->
   error w' = Some t /\ toasts w' = (toasts w ++ [ToastError t])%list) /\
  (t = "" ->
   error w' = Some "Erreur serveur: réponse non-JSON" /\
   toasts w' =
     (toasts w ++ [ToastError "Erreur serveur: réponse non-JSON"])%list) /\
  notifications w' = notifications w.
Proof.
  intros Hst Hct Ht.
  assert (Hok : ok r = false).
  { destruct (ok r) eqn:Hok; [|reflexivity]. apply ok_2xx in Hok.
    contradiction. }
  assert (Hno : (truthy (content_type r) &&
                 match content_type r with
                 | Some ct => includes ct "application/json"
                 | None => false
                 end) = false).
  { destruct (truthy (content_type r) && _) eqn:Hb; [|reflexivity].
    apply announces_json_dec in Hb. contradiction. }
  unfold loadNotifications. run_eff. rewrite Hok. run_eff.
  rewrite Hno, Ht. run_eff.
  unfold js_or. cbn [ApiError.details ApiError.error].
  repeat apply conj.
  - intros Hne. apply String.eqb_neq in Hne.
    unfold truthy. rewrite Hne. cbn [negb]. rewrite Hne. cbn [negb].
    split; reflexivity.
  - intros ->. split; reflexivity.
  - reflexivity.
Qed.

Lemma unstructured_error_reports_raw_text_witness :
  ~ (200 <= status html_500 <= 299)%Z /\
  ~ announces_json html_500 /\
  text html_500 = Normal "<html>boom</html>" /\
  error (run (loadNotifications (Some alice) (Normal html_500)) loaded) =
  Some "<html>boom</html>".
Proof.
  assert (Hst : ~ (200 <= status html_500 <= 299)%Z) by (simpl; lia).
  assert (Hct : ~ announces_json html_500).
  { intros (ct & Hct & Hinc). injection Hct as <-. discriminate Hinc. }
  repeat apply conj; [exact Hst | exact Hct | reflexivity |].
  destruct (unstructured_error_reports_raw_text alice html_500
              "<html>boom</html>" loaded Hst Hct eq_refl) as (Hraw & _).
  apply Hraw. discriminate.
Defined.

(** ** Scenarios of the specification *)

Example load_scenario :
  notifications loaded = two_unread /\ unreadCount loaded = 2 /\
  loading loaded = false /\ error loaded = None.
Proof. vm_compute. repeat split. Qed.

Example update_scenario :
  let w := step loaded (RealtimeEvent (update_of (sample "1" true))) in
  notifications w = [sample "1" true; sample "2" false] /\
  unreadCount w = 1.
Proof. vm_compute. repeat split. Qed.

Example structured_error_scenario :
  let w := run (loadNotifications (Some alice) (Normal json_404)) loaded in
  notifications w = two_unread /\ error w = Some "no such row" /\
  loading w = false /\ toasts w = [ToastError "no such row"].
Proof. vm_compute. repeat split. Qed.

Example no_identity_scenario :
  let w := run (loadNotifications None (Normal (ok_response two_unread)))
               loaded in
  notifications w = [] /\ loading w = false /\ requests w = requests loaded.
Proof. vm_compute. repeat split. Qed.

Example failed_markAsRead_scenario :
  let w := run (markAsRead (Some alice) ["1"; "2"]
                           (Abrupt (JsError "Failed to fetch"))) loaded in
  notifications w = two_unread /\ error w = None /\
  toasts w = [ToastError "Failed to fetch"].
Proof. vm_compute. repeat split. Qed.

(** ** Every outcome of the three callbacks *)

Lemma mutation_outcome (net : Completion Response) :
  (exists r, net = Normal r /\ ok r = true) \/ mutation_fails net.
Proof.
  destruct net as [r|e]; [|now right].
  destruct (ok r) eqn:Hok.
  - left. now exists r.
  - right. simpl. intros H. apply ok_2xx in H. congruence.
Qed.

Lemma load_requests (u : User) (net : Completion Response) (w : World) :
  requests (run (loadNotifications (Some u) net) w) =
  (requests w ++ [mkRequest "/api/notifications" "GET" None])%list.
Proof.
  unfold loadNotifications. destruct net as [r|e]; run_eff; [|reflexivity].
  destruct (ok r); run_eff.
  - destruct (json r) as [[data|body]|e]; reflexivity.
  - destruct (truthy (content_type r) && _).
    + destruct (json r) as [v|e]; reflexivity.
    + destruct (text r) as [t|e]; reflexivity.
Qed.

Lemma markAsRead_requests
    (u : User) (ids : list string) (net : Completion Response) (w : World) :
  requests (run (markAsRead (Some u) ids net) w) =
  (requests w ++
   [mkRequest ("/api/notifications/" ++ join "," ids) "PATCH" None])%list.
Proof.
  unfold markAsRead. destruct net as [r|e]; run_eff; [|reflexivity].
  destruct (ok r); run_eff; [reflexivity|].
  destruct (json r) as [v|e]; reflexivity.
Qed.

Lemma deleteNotifications_requests
    (u : User) (ids : list string) (net : Completion Response) (w : World) :
  requests (run (deleteNotifications (Some u) ids net) w) =
  (requests w ++
   [mkRequest ("/api/notifications/" ++ join "," ids) "DELETE"
              (Some "include")])%list.
Proof.
  unfold deleteNotifications. destruct net as [r|e]; run_eff; [|reflexivity].
  destruct (ok r); run_eff; [reflexivity|].
  destruct (json r) as [v|e]; reflexivity.
Qed.

Lemma load_no_user (net : Completion Response) (w : World) :
  let out := loadNotifications None net w in
  fst out = Normal tt /\
  notifications (snd out) = [] /\
  loading (snd out) = false /\
  error (snd out) = error w /\
  toasts (snd out) = toasts w /\
  requests (snd out) = requests w.
Proof. unfold loadNotifications. run_eff. repeat split. Qed.

Lemma success_payload_inv
    (net : Completion Response) (data : list Notification) :
  success_payload net = Some data ->
  exists r, net = Normal r /\ ok r = true /\ json r = Normal (JsonArray data).
Proof.
  unfold success_payload. destruct net as [r|e]; [|discriminate].
  destruct (ok r) eqn:Hok; [|discriminate].
  destruct (json r) as [[d|b]|e] eqn:Hj; try discriminate.
  intros [= <-]. exists r. auto.
Qed.

Lemma success_payload_none (net : Completion Response) :
  success_payload net = None ->
  match net with
  | Abrupt _ => True
  | Normal r =>
      ok r = false \/
      (ok r = true /\ forall data, json r <> Normal (JsonArray data))
  end.
Proof.
  unfold success_payload. destruct net as [r|e]; [|trivial].
  destruct (ok r); [|now left].
  destruct (json r) as [[d|b]|e]; try discriminate;
    intros _; right; split; try reflexivity; intros data; discriminate.
Qed.

(** A load with an identity bound either replaces the list, clearing
    [error] without a notice, or records one message and shows it. *)
Lemma load_user_cases (u : User) (net : Completion Response) (w : World) :
  let out := loadNotifications (Some u) net w in
  fst out = Normal tt /\
  loading (snd out) = false /\
  ((exists data,
      success_payload net = Some data /\
      notifications (snd out) = data /\
      error (snd out) = None /\
      toasts (snd out) = toasts w) \/
   (success_payload net = None /\
    notifications (snd out) = notifications w /\
    exists m, error (snd out) = Some m /\
              toasts (snd out) = (toasts w ++ [ToastError m])%list)).
Proof.
  cbv zeta. destruct (success_payload net) as [data|] eqn:Hs.
  - apply success_payload_inv in Hs as (r & -> & Hok & Hj).
    destruct (load_ok_array u r data w Hok Hj) as (Hc & Hn & Hl & He & Ht).
    repeat apply conj; try assumption. left. exists data. auto.
  - assert (Hfail : exists m, MostSpecific net m /\
                              load_failed w m (loadNotifications (Some u) net w)).
    { pose proof (success_payload_none net Hs) as Hk.
      destruct net as [r|e].
      - destruct Hk as [Hok | [Hok Hbody]].
        + now apply load_not_ok.
        + now apply load_ok_bad_body.
      - apply load_rejected. }
    destruct Hfail as (m & _ & Hc & Hn & Hl & He & Ht).
    repeat apply conj; try assumption. right. eauto.
Qed.

(** ** Guards on the identity *)

(** X1. Without an identity, [loadNotifications] empties the list and
    clears [loading] without contacting the server or showing anything; it
    does not touch [error], so a message recorded earlier stays. *)
Theorem load_without_identity (net : Completion Response) (w : World) :
  let w' := run (loadNotifications None net) w in
  completion (loadNotifications None net) w = Normal tt /\
  notifications w' = [] /\
  loading w' = false /\
  error w' = error w /\
  toasts w' = toasts w /\
  requests w' = requests w.
Proof. unfold loadNotifications. run_eff. repeat split. Qed.

(** X2. Without an identity, [markAsRead] and [deleteNotifications] do
    nothing but log: no request is made, no notice is shown and the three
    state cells keep their values, whatever ids are given. *)
Theorem mutation_without_identity
    (ids : list string) (net : Completion Response) (w : World) :
  (let w' := run (markAsRead None ids net) w in
   completion (markAsRead None ids net) w = Normal tt /\
   notifications w' = notifications w /\ loading w' = loading w /\
   error w' = error w /\ toasts w' = toasts w /\ requests w' = requests w) /\
  (let w' := run (deleteNotifications None ids net) w in
   completion (deleteNotifications None ids net) w = Normal tt /\
   notifications w' = notifications w /\ loading w' = loading w /\
   error w' = error w /\ toasts w' = toasts w /\ requests w' = requests w).
Proof.
  unfold markAsRead, deleteNotifications. run_eff. repeat split.
Qed.

(** X3. With an identity bound, each callback makes exactly one request,
    whatever the network then answers: the load a GET of the list endpoint,
    [markAsRead] a PATCH and [deleteNotifications] a DELETE (with
    credentials) of the endpoint followed by the comma-joined ids. *)
Theorem one_request_per_call
    (u : User) (ids : list string) (net : Completion Response) (w : World) :
  requests (run (loadNotifications (Some u) net) w) =
    (requests w ++ [mkRequest "/api/notifications" "GET" None])%list /\
  requests (run (markAsRead (Some u) ids net) w) =
    (requests w ++
     [mkRequest ("/api/notifications/" ++ join "," ids) "PATCH" None])%list /\
  requests (run (deleteNotifications (Some u) ids net) w) =
    (requests w ++
     [mkRequest ("/api/notifications/" ++ join "," ids) "DELETE"
                (Some "include")])%list.
Proof.
  repeat apply conj.
  - apply load_requests.
  - apply markAsRead_requests.
  - apply deleteNotifications_requests.
Qed.

(** X4. A successful load clears a previously recorded [error] and shows
    no notice. *)
Theorem successful_load_clears_error
    (u : User) (net : Completion Response) (data : list Notification)
    (w : World) :
  success_payload net = Some data ->
  let w' := run (loadNotifications (Some u) net) w in
  error w' = None /\ toasts w' = toasts w.
Proof.
  intros Hs. apply success_payload_inv in Hs as (r & -> & Hok & Hj).
  destruct (load_ok_array u r data w Hok Hj) as (_ & _ & _ & He & Ht).
  split; assumption.
Qed.

Lemma successful_load_clears_error_witness :
  success_payload (Normal (ok_response [])) = Some [] /\
  error
    (run (loadNotifications (Some alice) (Normal (ok_response [])))
         (run (loadNotifications (Some alice) (Normal html_500)) initial)) =
  None.
Proof.
  split; [reflexivity|].
  apply (successful_load_clears_error alice (Normal (ok_response [])) []
           (run (loadNotifications (Some alice) (Normal html_500)) initial)
           eq_refl).
Defined.

(** X5. The notice of a failed mutation carries: the message of the error
    with which [fetch] rejected; else, for a non-2xx response whose body
    parses, [details], else [error], else the operation's own fallback; and
    when the body does not parse, the parser's message.  The content type
    is not consulted. *)
Theorem failed_mutation_message
    (u : User) (ids : list string) (net : Completion Response) (w : World) :
  mutation_fails net ->
  (exists m,
     MutationMessage "Erreur lors du marquage des notifications"
                     "Impossible de marquer les notifications comme lues"
                     net m /\
     toasts (run (markAsRead (Some u) ids net) w) =
     (toasts w ++ [ToastError m])%list) /\
  (exists m,
     MutationMessage "Erreur lors de la suppression des notifications"
                     "Impossible de supprimer les notifications"
                     net m /\
     toasts (run (deleteNotifications (Some u) ids net) w) =
     (toasts w ++ [ToastError m])%list).
Proof.
  intros Hfail. unfold markAsRead, deleteNotifications.
  destruct net as [r|e].
  - apply mutation_fails_not_ok in Hfail. run_eff. rewrite Hfail. run_eff.
    destruct (json r) as [v|e] eqn:Hj; run_eff; split; eexists;
      (split; [|reflexivity]).
    + eapply mm_structured; eauto using js_or_first_available.
    + eapply mm_structured; eauto using js_or_first_available.
    + eapply mm_unparsable; eauto. destruct e; constructor.
    + eapply mm_unparsable; eauto. destruct e; constructor.
  - run_eff. split; eexists; (split; [|reflexivity]);
      constructor; destruct e; constructor.
Qed.

Lemma failed_mutation_message_witness :
  mutation_fails (Normal html_500) /\
  toasts
    (run (deleteNotifications (Some alice) ["1"] (Normal html_500)) initial) =
  [ToastError "Unexpected token <"].
Proof.
  assert (Hfail : mutation_fails (Normal html_500)) by (simpl; lia).
  split; [exact Hfail|].
  destruct (failed_mutation_message alice ["1"] (Normal html_500) initial
              Hfail) as (_ & m & Hm & Ht).
  rewrite Ht. inversion Hm as [| r v m' Hok Hj _ | r e m' Hok Hj Hth];
    subst; simpl in Hj; [discriminate Hj|].
  injection Hj as <-. inversion Hth. reflexivity.
Defined.

(** X6. On SIGNED_IN the auth handler does what [loadNotifications] does
    for the identity the effect captured: the same list, flags, notices and
    requests result.  In particular, with no identity captured the list is
    emptied and the server is not contacted. *)
Theorem signed_in_runs_load
    (user : option User) (net : Completion Response) (w : World) :
  let w1 := run (onAuthStateChange user "SIGNED_IN" net) w in
  let w2 := run (loadNotifications user net) w in
  notifications w1 = notifications w2 /\
  loading w1 = loading w2 /\
  error w1 = error w2 /\
  toasts w1 = toasts w2 /\
  requests w1 = requests w2.
Proof.
  unfold onAuthStateChange.
  change ("SIGNED_IN" =? "SIGNED_IN") with true. cbv iota.
  unfold loadNotifications. destruct user as [u|]; run_eff.
  - destruct net as [r|e]; run_eff; [|repeat split].
    destruct (ok r); run_eff.
    + destruct (json r) as [[data|body]|e]; repeat split.
    + destruct (truthy (content_type r) && _).
      * destruct (json r) as [v|e]; repeat split.
      * destruct (text r) as [t|e]; repeat split.
  - repeat split.
Qed.

(** ** More on lists *)

Lemma Subsequence_refl {A : Type} (l : list A) : Subsequence l l.
Proof. induction l; now constructor. Qed.

Lemma Subsequence_nil {A : Type} (l : list A) : Subsequence [] l.
Proof. induction l; now constructor. Qed.

Lemma Subsequence_In {A : Type} (l1 l2 : list A) (x : A) :
  Subsequence l1 l2 -> In x l1 -> In x l2.
Proof.
  induction 1 as [|y l1 l2 _ IH|y l1 l2 _ IH]; simpl; intuition.
Qed.

Lemma Subsequence_NoDup {A : Type} (l1 l2 : list A) :
  Subsequence l1 l2 -> NoDup l2 -> NoDup l1.
Proof.
  induction 1 as [|y l1 l2 Hs IH|y l1 l2 Hs IH]; intros Hnd.
  - constructor.
  - inversion Hnd as [|? ? Hy Hnd']; subst. constructor; [|now apply IH].
    intros Hin. apply Hy. eapply Subsequence_In; eassumption.
  - inversion Hnd; subst. now apply IH.
Qed.

Lemma Subsequence_map {A B : Type} (f : A -> B) (l1 l2 : list A) :
  Subsequence l1 l2 -> Subsequence (map f l1) (map f l2).
Proof. induction 1; simpl; now constructor. Qed.

Lemma count_unread_Subsequence (l1 l2 : list Notification) :
  Subsequence l1 l2 -> count_unread l1 <= count_unread l2.
Proof.
  induction 1 as [|n l1 l2 _ IH|n l1 l2 _ IH]; simpl;
    try destruct (Notification.read n); lia.
Qed.

(** The two list transformers of the mutations. *)
Lemma mark_ids (ids : list string) (l : list Notification) :
  map Notification.id
      (map (fun n => if array_includes ids (Notification.id n)
                     then Notification.with_read n true else n) l) =
  map Notification.id l.
Proof.
  rewrite map_map. apply map_ext. intros n.
  now destruct (array_includes ids (Notification.id n)).
Qed.

Lemma mark_count (ids : list string) (l : list Notification) :
  count_unread
    (map (fun n => if array_includes ids (Notification.id n)
                   then Notification.with_read n true else n) l) <=
  count_unread l.
Proof.
  induction l as [|n l IH]; simpl; [lia|].
  destruct (array_includes ids (Notification.id n)); simpl;
    destruct (Notification.read n); lia.
Qed.

Lemma array_includes_app (ids1 ids2 : list string) (x : string) :
  array_includes (ids1 ++ ids2) x =
  array_includes ids1 x || array_includes ids2 x.
Proof. unfold array_includes. apply existsb_app. Qed.

(** ** Realtime events, continued *)

Lemma other_event (p : Payload) (w : World) :
  Payload.eventType p <> "INSERT" ->
  Payload.eventType p <> "UPDATE" ->
  Payload.eventType p <> "DELETE" ->
  let w' := step w (RealtimeEvent p) in
  notifications w' = notifications w /\
  loading w' = loading w /\ error w' = error w /\
  toasts w' = toasts w /\ requests w' = requests w.
Proof.
  intros Hi Hu Hd. unfold step, perform, onPostgresChanges.
  apply String.eqb_neq in Hi, Hu, Hd. rewrite Hi, Hu, Hd. run_eff.
  repeat split.
Qed.

Lemma realtime_completes (p : Payload) (w : World) :
  completion (onPostgresChanges p) w = Normal tt.
Proof.
  unfold onPostgresChanges.
  destruct (Payload.eventType p =? "INSERT"); [reflexivity|].
  destruct (Payload.eventType p =? "UPDATE"); [reflexivity|].
  destruct (Payload.eventType p =? "DELETE"); reflexivity.
Qed.

(** The four kinds of payload. *)
Lemma event_kind (p : Payload) :
  Payload.eventType p = "INSERT" \/ Payload.eventType p = "UPDATE" \/
  Payload.eventType p = "DELETE" \/
  (Payload.eventType p <> "INSERT" /\ Payload.eventType p <> "UPDATE" /\
   Payload.eventType p <> "DELETE").
Proof.
  destruct (String.eqb_spec (Payload.eventType p) "INSERT"); [now left|].
  destruct (String.eqb_spec (Payload.eventType p) "UPDATE");
    [now right; left|].
  destruct (String.eqb_spec (Payload.eventType p) "DELETE");
    [now right; right; left|].
  now right; right; right.
Qed.

(** X7. A realtime event never throws, never contacts the server and never
    changes [loading] or [error]; it shows a notice only when it is an
    INSERT; and an event whose type is none of INSERT, UPDATE, DELETE
    leaves the list as it is. *)
Theorem realtime_event_frame (p : Payload) (w : World) :
  let w' := step w (RealtimeEvent p) in
  completion (onPostgresChanges p) w = Normal tt /\
  loading w' = loading w /\ error w' = error w /\
  requests w' = requests w /\
  (Payload.eventType p <> "INSERT" -> toasts w' = toasts w) /\
  (Payload.eventType p <> "INSERT" -> Payload.eventType p <> "UPDATE" ->
   Payload.eventType p <> "DELETE" -> notifications w' = notifications w).
Proof.
  cbv zeta. split; [apply realtime_completes|].
  destruct (event_kind p) as [H | [H | [H | (Hi & Hu & Hd)]]].
  - destruct (insert_event p w H) as (_ & Hl & He & _ & Hr).
    repeat apply conj; try assumption; intros; congruence.
  - destruct (update_event p w H) as (_ & Hl & He & Ht & Hr).
    repeat apply conj; try assumption; intros; congruence.
  - destruct (delete_event p w H) as (_ & Hl & He & Ht & Hr).
    repeat apply conj; try assumption; intros; congruence.
  - destruct (other_event p w Hi Hu Hd) as (Hn & Hl & He & Ht & Hr).
    repeat apply conj; auto.
Qed.

Lemma realtime_event_frame_witness :
  let p := Payload.make "TRUNCATE" (sample "1" true) (sample "1" true) in
  Payload.eventType p <> "INSERT" /\
  notifications (step loaded (RealtimeEvent p)) = notifications loaded /\
  toasts (step loaded (RealtimeEvent p)) = toasts loaded.
Proof.
  cbv zeta.
  assert (Hi : "TRUNCATE" <> "INSERT") by discriminate.
  assert (Hu : "TRUNCATE" <> "UPDATE") by discriminate.
  assert (Hd : "TRUNCATE" <> "DELETE") by discriminate.
  split; [exact Hi|].
  destruct (realtime_event_frame
              (Payload.make "TRUNCATE" (sample "1" true) (sample "1" true))
              loaded) as (_ & _ & _ & _ & Ht & Hn).
  split; [exact (Hn Hi Hu Hd) | exact (Ht Hi)].
Defined.

(** X8. Delivering the same UPDATE event twice leaves everything the hook
    exposes, and the notices, as after the first delivery. *)
Theorem update_event_idempotent (p : Payload) (w : World) :
  Payload.eventType p = "UPDATE" ->
  let w1 := step w (RealtimeEvent p) in
  let w2 := step w1 (RealtimeEvent p) in
  useNotifications w2 = useNotifications w1 /\ toasts w2 = toasts w1.
Proof.
  intros H w1 w2.
  destruct (update_event p w H) as (Hn & _).
  destruct (update_event p w1 H) as (Hn2 & Hl2 & He2 & Ht2 & _).
  fold w1 in Hn. fold w2 in Hn2, Hl2, He2, Ht2.
  assert (Hsame : notifications w2 = notifications w1).
  { rewrite Hn2, Hn, map_map. apply map_ext. intros n.
    destruct (Notification.id n =? Notification.id (Payload.new p)) eqn:Hid.
    - now rewrite String.eqb_refl.
    - now rewrite Hid. }
  split; [|assumption].
  unfold useNotifications, unreadCount. now rewrite Hsame, Hl2, He2.
Qed.

Lemma update_event_idempotent_witness :
  Payload.eventType (update_of (sample "2" true)) = "UPDATE" /\
  useNotifications
    (step (step loaded (RealtimeEvent (update_of (sample "2" true))))
          (RealtimeEvent (update_of (sample "2" true)))) =
  useNotifications (step loaded (RealtimeEvent (update_of (sample "2" true)))).
Proof.
  split; [reflexivity|].
  apply (update_event_idempotent (update_of (sample "2" true)) loaded eq_refl).
Defined.

(** X9. An INSERT followed by the DELETE of the same id gives back the
    list as it was, provided no item carried that id before. *)
Theorem insert_then_delete_restores (pi pd : Payload) (w : World) :
  Payload.eventType pi = "INSERT" ->
  Payload.eventType pd = "DELETE" ->
  Notification.id (Payload.old pd) = Notification.id (Payload.new pi) ->
  (forall n, In n (notifications w) ->
             Notification.id n <> Notification.id (Payload.new pi)) ->
  notifications (step (step w (RealtimeEvent pi)) (RealtimeEvent pd)) =
  notifications w.
Proof.
  intros Hi Hd Hid Hfresh.
  destruct (insert_event pi w Hi) as (Hn1 & _).
  destruct (delete_event pd (step w (RealtimeEvent pi)) Hd) as (Hn2 & _).
  rewrite Hn2, Hn1, Hid. simpl. rewrite String.eqb_refl. simpl.
  apply filter_none. intros n Hin.
  now apply negb_true_iff, String.eqb_neq, Hfresh.
Qed.

Lemma insert_then_delete_restores_witness :
  Payload.eventType (insert_of (sample "3" false)) = "INSERT" /\
  Payload.eventType (delete_of (sample "3" false)) = "DELETE" /\
  Notification.id (Payload.old (delete_of (sample "3" false))) =
    Notification.id (Payload.new (insert_of (sample "3" false))) /\
  (forall n, In n (notifications loaded) ->
     Notification.id n <>
     Notification.id (Payload.new (insert_of (sample "3" false)))) /\
  notifications
    (step (step loaded (RealtimeEvent (insert_of (sample "3" false))))
          (RealtimeEvent (delete_of (sample "3" false)))) =
  notifications loaded.
Proof.
  assert (Hfresh : forall n, In n (notifications loaded) ->
     Notification.id n <>
     Notification.id (Payload.new (insert_of (sample "3" false)))).
  { vm_compute. intros n [<- | [<- | []]]; discriminate. }
  split; [reflexivity|]. split; [reflexivity|]. split; [reflexivity|].
  split; [exact Hfresh|].
  exact (insert_then_delete_restores (insert_of (sample "3" false))
           (delete_of (sample "3" false)) loaded eq_refl eq_refl eq_refl
           Hfresh).
Defined.

(** X10. An INSERT raises [unreadCount] by one when the new record is
    unread and leaves it unchanged when the record is already read. *)
Theorem insert_unreadCount (p : Payload) (w : World) :
  Payload.eventType p = "INSERT" ->
  unreadCount (step w (RealtimeEvent p)) =
  (if Notification.read (Payload.new p) then 0 else 1) + unreadCount w.
Proof.
  intros H. destruct (insert_event p w H) as (Hn & _).
  rewrite !unreadCount_counts, Hn. simpl.
  now destruct (Notification.read (Payload.new p)).
Qed.

Lemma insert_unreadCount_witness :
  Payload.eventType (insert_of (sample "3" false)) = "INSERT" /\
  unreadCount (step loaded (RealtimeEvent (insert_of (sample "3" false)))) = 3.
Proof.
  split; [reflexivity|].
  rewrite (insert_unreadCount (insert_of (sample "3" false)) loaded eq_refl).
  vm_compute. reflexivity.
Defined.

(** ** Mutations, continued *)

Lemma markAsRead_marked
    (u : User) (ids : list string) (r : Response) (w : World) :
  (200 <= status r <= 299)%Z ->
  notifications (run (markAsRead (Some u) ids (Normal r)) w) =
  marked ids (notifications w).
Proof.
  intros Hst. apply ok_2xx in Hst.
  now destruct (markAsRead_ok u ids r w Hst) as (_ & Hn & _).
Qed.

Lemma deleteNotifications_without
    (u : User) (ids : list string) (r : Response) (w : World) :
  (200 <= status r <= 299)%Z ->
  notifications (run (deleteNotifications (Some u) ids (Normal r)) w) =
  without ids (notifications w).
Proof.
  intros Hst. apply ok_2xx in Hst.
  now destruct (deleteNotifications_ok u ids r w Hst) as (_ & Hn & _).
Qed.

Lemma marked_app (ids1 ids2 : list string) (l : list Notification) :
  marked ids2 (marked ids1 l) = marked (ids1 ++ ids2) l.
Proof.
  unfold marked. rewrite map_map. apply map_ext. intros n.
  rewrite array_includes_app.
  destruct (array_includes ids1 (Notification.id n)) eqn:H1; simpl.
  - now destruct (array_includes ids2 (Notification.id n)).
  - reflexivity.
Qed.

Lemma without_app (ids1 ids2 : list string) (l : list Notification) :
  without ids2 (without ids1 l) = without (ids1 ++ ids2) l.
Proof.
  unfold without. induction l as [|n l IH]; simpl; [reflexivity|].
  rewrite array_includes_app.
  destruct (array_includes ids1 (Notification.id n)) eqn:H1; simpl.
  - exact IH.
  - destruct (array_includes ids2 (Notification.id n)); simpl;
      now rewrite IH.
Qed.

Lemma marked_without (idsm idsd : list string) (l : list Notification) :
  without idsd (marked idsm l) = marked idsm (without idsd l).
Proof.
  unfold without, marked. induction l as [|n l IH]; simpl; [reflexivity|].
  assert (Hid :
    Notification.id (if array_includes idsm (Notification.id n)
                     then Notification.with_read n true else n) =
    Notification.id n)
    by now destruct (array_includes idsm (Notification.id n)).
  rewrite Hid.
  destruct (array_includes idsd (Notification.id n)); simpl; now rewrite IH.
Qed.

Lemma marked_idempotent (ids : list string) (l : list Notification) :
  marked ids (marked ids l) = marked ids l.
Proof.
  unfold marked. rewrite map_map. apply map_ext. intros n.
  destruct (array_includes ids (Notification.id n)) eqn:H; simpl;
    now rewrite H.
Qed.

Lemma marked_all (ids : list string) (l : list Notification) :
  (forall n, In n l -> In (Notification.id n) ids) ->
  count_unread (marked ids l) = 0.
Proof.
  unfold marked. induction l as [|n l IH]; simpl; intros Hall; [reflexivity|].
  assert (Hn : array_includes ids (Notification.id n) = true).
  { apply array_includes_In, Hall. now left. }
  rewrite Hn. simpl. apply IH. intros m Hm. apply Hall. now right.
Qed.

(** X11. Repeating a successful [markAsRead] with the same ids changes
    nothing more: the list after the second call is the list after the
    first. *)
Theorem markAsRead_idempotent
    (u : User) (ids : list string) (r1 r2 : Response) (w : World) :
  (200 <= status r1 <= 299)%Z ->
  (200 <= status r2 <= 299)%Z ->
  let w1 := run (markAsRead (Some u) ids (Normal r1)) w in
  let w2 := run (markAsRead (Some u) ids (Normal r2)) w1 in
  notifications w2 = notifications w1.
Proof.
  intros H1 H2 w1 w2. unfold w2, w1.
  rewrite !markAsRead_marked by assumption. apply marked_idempotent.
Qed.

Lemma markAsRead_idempotent_witness :
  (200 <= status (ok_response []) <= 299)%Z /\
  notifications
    (run (markAsRead (Some alice) ["1"] (Normal (ok_response [])))
         (run (markAsRead (Some alice) ["1"] (Normal (ok_response [])))
              loaded)) =
  notifications
    (run (markAsRead (Some alice) ["1"] (Normal (ok_response []))) loaded).
Proof.
  assert (H : (200 <= status (ok_response []) <= 299)%Z) by (simpl; lia).
  split; [exact H|].
  apply (markAsRead_idempotent alice ["1"] (ok_response []) (ok_response [])
           loaded H H).
Defined.

(** X12. A successful mutation never raises [unreadCount]:
    [markAsRead] keeps the number of items and can only lower the count,
    [deleteNotifications] can only shorten the list and lower the count. *)
Theorem mutation_never_raises_unreadCount
    (u : User) (ids : list string) (r : Response) (w : World) :
  (200 <= status r <= 299)%Z ->
  (let w' := run (markAsRead (Some u) ids (Normal r)) w in
   unreadCount w' <= unreadCount w /\
   length (notifications w') = length (notifications w)) /\
  (let w' := run (deleteNotifications (Some u) ids (Normal r)) w in
   unreadCount w' <= unreadCount w /\
   length (notifications w') <= length (notifications w)).
Proof.
  intros Hst. cbv zeta. rewrite !unreadCount_counts.
  rewrite markAsRead_marked, deleteNotifications_without by assumption.
  repeat apply conj.
  - apply mark_count.
  - apply length_map.
  - apply count_unread_Subsequence, filter_Subsequence.
  - apply filter_length_le.
Qed.

Lemma mutation_never_raises_unreadCount_witness :
  (200 <= status (ok_response []) <= 299)%Z /\
  unreadCount
    (run (deleteNotifications (Some alice) ["2"] (Normal (ok_response [])))
         loaded) <= unreadCount loaded.
Proof.
  assert (H : (200 <= status (ok_response []) <= 299)%Z) by (simpl; lia).
  split; [exact H|].
  apply (mutation_never_raises_unreadCount alice ["2"] (ok_response [])
           loaded H).
Defined.

(** X13. After a successful [markAsRead] whose ids cover every item of the
    list, [unreadCount] is zero. *)
Theorem markAsRead_all_clears_unreadCount
    (u : User) (ids : list string) (r : Response) (w : World) :
  (200 <= status r <= 299)%Z ->
  (forall n, In n (notifications w) -> In (Notification.id n) ids) ->
  unreadCount (run (markAsRead (Some u) ids (Normal r)) w) = 0.
Proof.
  intros Hst Hall.
  rewrite unreadCount_counts, markAsRead_marked by assumption.
  now apply marked_all.
Qed.

Lemma markAsRead_all_clears_unreadCount_witness :
  (200 <= status (ok_response []) <= 299)%Z /\
  (forall n, In n (notifications loaded) ->
             In (Notification.id n) ["2"; "1"]) /\
  unreadCount
    (run (markAsRead (Some alice) ["2"; "1"] (Normal (ok_response [])))
         loaded) = 0.
Proof.
  assert (H : (200 <= status (ok_response []) <= 299)%Z) by (simpl; lia).
  assert (Hall : forall n, In n (notifications loaded) ->
                           In (Notification.id n) ["2"; "1"]).
  { vm_compute. intros n [<- | [<- | []]]; auto. }
  split; [exact H | split; [exact Hall|]].
  apply (markAsRead_all_clears_unreadCount alice ["2"; "1"] (ok_response [])
           loaded H Hall).
Defined.

(** X14. Two successful [markAsRead] calls in a row leave the same list as
    one call with the two id lists concatenated. *)
Theorem markAsRead_batches
    (u : User) (ids1 ids2 : list string) (r1 r2 r : Response) (w : World) :
  (200 <= status r1 <= 299)%Z ->
  (200 <= status r2 <= 299)%Z ->
  (200 <= status r <= 299)%Z ->
  notifications
    (run (markAsRead (Some u) ids2 (Normal r2))
         (run (markAsRead (Some u) ids1 (Normal r1)) w)) =
  notifications (run (markAsRead (Some u) (ids1 ++ ids2) (Normal r)) w).
Proof.
  intros H1 H2 H. rewrite !markAsRead_marked by assumption.
  apply marked_app.
Qed.

Lemma markAsRead_batches_witness :
  (200 <= status (ok_response []) <= 299)%Z /\
  notifications
    (run (markAsRead (Some alice) ["2"] (Normal (ok_response [])))
         (run (markAsRead (Some alice) ["1"] (Normal (ok_response [])))
              loaded)) =
  notifications
    (run (markAsRead (Some alice) (["1"] ++ ["2"]) (Normal (ok_response [])))
         loaded).
Proof.
  assert (H : (200 <= status (ok_response []) <= 299)%Z) by (simpl; lia).
  split; [exact H|].
  apply (markAsRead_batches alice ["1"] ["2"] (ok_response [])
           (ok_response []) (ok_response []) loaded H H H).
Defined.

(** X15. Two successful [deleteNotifications] calls in a row leave the
    same list as one call with the two id lists concatenated. *)
Theorem deleteNotifications_batches
    (u : User) (ids1 ids2 : list string) (r1 r2 r : Response) (w : World) :
  (200 <= status r1 <= 299)%Z ->
  (200 <= status r2 <= 299)%Z ->
  (200 <= status r <= 299)%Z ->
  notifications
    (run (deleteNotifications (Some u) ids2 (Normal r2))
         (run (deleteNotifications (Some u) ids1 (Normal r1)) w)) =
  notifications
    (run (deleteNotifications (Some u) (ids1 ++ ids2) (Normal r)) w).
Proof.
  intros H1 H2 H. rewrite !deleteNotifications_without by assumption.
  apply without_app.
Qed.

Lemma deleteNotifications_batches_witness :
  (200 <= status (ok_response []) <= 299)%Z /\
  notifications
    (run (deleteNotifications (Some alice) ["2"] (Normal (ok_response [])))
         (run (deleteNotifications (Some alice) ["1"]
                                   (Normal (ok_response [])))
              loaded)) =
  notifications
    (run (deleteNotifications (Some alice) (["1"] ++ ["2"])
                              (Normal (ok_response [])))
         loaded).
Proof.
  assert (H : (200 <= status (ok_response []) <= 299)%Z) by (simpl; lia).
  split; [exact H|].
  apply (deleteNotifications_batches alice ["1"] ["2"] (ok_response [])
           (ok_response []) (ok_response []) loaded H H H).
Defined.

(** X16. A successful [markAsRead] and a successful [deleteNotifications]
    commute: either order leaves the same list. *)
Theorem markAsRead_deleteNotifications_commute
    (u : User) (idsm idsd : list string) (rm rd : Response) (w : World) :
  (200 <= status rm <= 299)%Z ->
  (200 <= status rd <= 299)%Z ->
  notifications
    (run (deleteNotifications (Some u) idsd (Normal rd))
         (run (markAsRead (Some u) idsm (Normal rm)) w)) =
  notifications
    (run (markAsRead (Some u) idsm (Normal rm))
         (run (deleteNotifications (Some u) idsd (Normal rd)) w)).
Proof.
  intros Hm Hd.
  rewrite !deleteNotifications_without, !markAsRead_marked,
    deleteNotifications_without by assumption.
  apply marked_without.
Qed.

Lemma markAsRead_deleteNotifications_commute_witness :
  (200 <= status (ok_response []) <= 299)%Z /\
  notifications
    (run (deleteNotifications (Some alice) ["1"] (Normal (ok_response [])))
         (run (markAsRead (Some alice) ["1"; "2"] (Normal (ok_response [])))
              loaded)) =
  notifications
    (run (markAsRead (Some alice) ["1"; "2"] (Normal (ok_response [])))
         (run (deleteNotifications (Some alice) ["1"]
                                   (Normal (ok_response [])))
              loaded)).
Proof.
  assert (H : (200 <= status (ok_response []) <= 299)%Z) by (simpl; lia).
  split; [exact H|].
  apply (markAsRead_deleteNotifications_commute alice ["1"; "2"] ["1"]
           (ok_response []) (ok_response []) loaded H H).
Defined.

(** X17. With an empty id list the mutations still contact the server, at
    the endpoint followed by nothing, and on success leave the list exactly
    as it was. *)
Theorem empty_ids_change_nothing (u : User) (r : Response) (w : World) :
  (200 <= status r <= 299)%Z ->
  (let w' := run (markAsRead (Some u) [] (Normal r)) w in
   notifications w' = notifications w /\
   requests w' =
     (requests w ++ [mkRequest "/api/notifications/" "PATCH" None])%list) /\
  (let w' := run (deleteNotifications (Some u) [] (Normal r)) w in
   notifications w' = notifications w /\
   requests w' =
     (requests w ++
      [mkRequest "/api/notifications/" "DELETE" (Some "include")])%list).
Proof.
  intros Hst. cbv zeta.
  rewrite markAsRead_marked, deleteNotifications_without by assumption.
  rewrite markAsRead_requests, deleteNotifications_requests.
  repeat apply conj; try reflexivity.
  - unfold marked. apply map_unchanged. reflexivity.
  - unfold without. apply filter_none. reflexivity.
Qed.

Lemma empty_ids_change_nothing_witness :
  (200 <= status (ok_response []) <= 299)%Z /\
  notifications
    (run (deleteNotifications (Some alice) [] (Normal (ok_response [])))
         loaded) = notifications loaded.
Proof.
  assert (H : (200 <= status (ok_response []) <= 299)%Z) by (simpl; lia).
  split; [exact H|].
  apply (empty_ids_change_nothing alice (ok_response []) loaded H).
Defined.

(** ** What each action can do *)

Lemma at_most_one_more_refl {A : Type} (l : list A) : at_most_one_more l l.
Proof. now left. Qed.

Lemma at_most_one_more_snoc {A : Type} (l : list A) (x : A) :
  at_most_one_more l (l ++ [x]).
Proof. right. now exists x. Qed.

Lemma update_ids (new : Notification) (l : list Notification) :
  map Notification.id
      (map (fun n => if Notification.id n =? Notification.id new
                     then new else n) l) =
  map Notification.id l.
Proof.
  rewrite map_map. apply map_ext. intros n.
  destruct (String.eqb_spec (Notification.id n) (Notification.id new));
    congruence.
Qed.

Lemma markAsRead_fields
    (user : option User) (ids : list string) (net : Completion Response)
    (w : World) :
  let w' := run (markAsRead user ids net) w in
  completion (markAsRead user ids net) w = Normal tt /\
  loading w' = loading w /\ error w' = error w /\
  (notifications w' = notifications w \/
   notifications w' = marked ids (notifications w)) /\
  at_most_one_more (toasts w) (toasts w') /\
  (requests w' = requests w \/
   requests w' =
   (requests w ++
    [mkRequest ("/api/notifications/" ++ join "," ids) "PATCH" None])%list).
Proof.
  cbv zeta. destruct user as [u|].
  - pose proof (markAsRead_requests u ids net w) as Hreq.
    destruct (mutation_outcome net) as [(r & -> & Hok) | Hfail].
    + destruct (markAsRead_ok u ids r w Hok) as (Hc & Hn & Hl & He & Ht).
      repeat apply conj; auto.
      unfold run. rewrite Ht. apply at_most_one_more_refl.
    + destruct (markAsRead_failed u ids net w Hfail)
        as (Hc & Hn & Hl & He & m & Ht).
      repeat apply conj; auto.
      unfold run. rewrite Ht. apply at_most_one_more_snoc.
  - unfold markAsRead. run_eff. repeat apply conj; auto.
    apply at_most_one_more_refl.
Qed.

Lemma deleteNotifications_fields
    (user : option User) (ids : list string) (net : Completion Response)
    (w : World) :
  let w' := run (deleteNotifications user ids net) w in
  completion (deleteNotifications user ids net) w = Normal tt /\
  loading w' = loading w /\ error w' = error w /\
  (notifications w' = notifications w \/
   notifications w' = without ids (notifications w)) /\
  at_most_one_more (toasts w) (toasts w') /\
  (requests w' = requests w \/
   requests w' =
   (requests w ++
    [mkRequest ("/api/notifications/" ++ join "," ids) "DELETE"
               (Some "include")])%list).
Proof.
  cbv zeta. destruct user as [u|].
  - pose proof (deleteNotifications_requests u ids net w) as Hreq.
    destruct (mutation_outcome net) as [(r & -> & Hok) | Hfail].
    + destruct (deleteNotifications_ok u ids r w Hok)
        as (Hc & Hn & Hl & He & Ht).
      repeat apply conj; auto.
      unfold run. rewrite Ht. apply at_most_one_more_refl.
    + destruct (deleteNotifications_failed u ids net w Hfail)
        as (Hc & Hn & Hl & He & m & Ht).
      repeat apply conj; auto.
      unfold run. rewrite Ht. apply at_most_one_more_snoc.
  - unfold deleteNotifications. run_eff. repeat apply conj; auto.
    apply at_most_one_more_refl.
Qed.

Lemma load_fields
    (user : option User) (net : Completion Response) (w : World) :
  let w' := run (loadNotifications user net) w in
  completion (loadNotifications user net) w = Normal tt /\
  loading w' = false /\
  (requests w' = requests w \/
   requests w' =
   (requests w ++ [mkRequest "/api/notifications" "GET" None])%list) /\
  ((error w' = error w \/ error w' = None) /\ toasts w' = toasts w \/
   exists m, error w' = Some m /\
             toasts w' = (toasts w ++ [ToastError m])%list).
Proof.
  cbv zeta. destruct user as [u|].
  - pose proof (load_requests u net w) as Hreq.
    destruct (load_user_cases u net w)
      as (Hc & Hl & [(data & _ & _ & He & Ht) | (_ & _ & m & He & Ht)]);
      repeat apply conj; auto.
    right. now exists m.
  - destruct (load_no_user net w) as (Hc & _ & Hl & He & Ht & Hr).
    repeat apply conj; auto.
Qed.

Lemma auth_other_fields
    (user : option User) (event : string) (net : Completion Response)
    (w : World) :
  event <> "SIGNED_IN" ->
  let w' := run (onAuthStateChange user event net) w in
  completion (onAuthStateChange user event net) w = Normal tt /\
  loading w' = loading w /\ error w' = error w /\
  (notifications w' = notifications w \/ notifications w' = []) /\
  toasts w' = toasts w /\ requests w' = requests w.
Proof.
  intros Hin. unfold onAuthStateChange.
  apply String.eqb_neq in Hin. run_eff. rewrite Hin.
  destruct (event =? "SIGNED_OUT"); run_eff; repeat apply conj; auto.
Qed.

Lemma signed_in_unfold
    (user : option User) (net : Completion Response) (w : World) :
  onAuthStateChange user "SIGNED_IN" net w =
  loadNotifications user net
    (run (console_log
            "[useNotifications] Changement d'état d'authentification:") w).
Proof. reflexivity. Qed.

Lemma realtime_fields (p : Payload) (w : World) :
  let w' := step w (RealtimeEvent p) in
  loading w' = loading w /\ error w' = error w /\
  requests w' = requests w /\
  at_most_one_more (toasts w) (toasts w') /\
  (Payload.eventType p = "INSERT" \/
   Subsequence (map Notification.id (notifications w'))
               (map Notification.id (notifications w))).
Proof.
  cbv zeta.
  destruct (event_kind p) as [H | [H | [H | (Hi & Hu & Hd)]]].
  - destruct (insert_event p w H) as (_ & Hl & He & Ht & Hr).
    repeat apply conj; auto. rewrite Ht. apply at_most_one_more_snoc.
  - destruct (update_event p w H) as (Hn & Hl & He & Ht & Hr).
    repeat apply conj; auto.
    + rewrite Ht. apply at_most_one_more_refl.
    + right. rewrite Hn, update_ids. apply Subsequence_refl.
  - destruct (delete_event p w H) as (Hn & Hl & He & Ht & Hr).
    repeat apply conj; auto.
    + rewrite Ht. apply at_most_one_more_refl.
    + right. rewrite Hn. apply Subsequence_map, filter_Subsequence.
  - destruct (other_event p w Hi Hu Hd) as (Hn & Hl & He & Ht & Hr).
    repeat apply conj; auto.
    + rewrite Ht. apply at_most_one_more_refl.
    + right. rewrite Hn. apply Subsequence_refl.
Qed.

Lemma hook_request_get : hook_request (mkRequest "/api/notifications" "GET" None).
Proof. now left. Qed.

Lemma hook_request_patch (ids : list string) :
  hook_request (mkRequest ("/api/notifications/" ++ join "," ids) "PATCH" None).
Proof. right. exists ids. now left. Qed.

Lemma hook_request_delete (ids : list string) :
  hook_request (mkRequest ("/api/notifications/" ++ join "," ids) "DELETE"
                          (Some "include")).
Proof. right. exists ids. now right. Qed.

Lemma load_summary
    (user : option User) (net : Completion Response) (w w0 : World) :
  toasts w0 = toasts w -> requests w0 = requests w ->
  loading w0 = loading w -> error w0 = error w ->
  step_summary w (run (loadNotifications user net) w0).
Proof.
  intros Ht0 Hr0 Hl0 He0.
  destruct (load_fields user net w0) as (_ & Hl & Hr & Het).
  cbv zeta in Hl, Hr, Het. rewrite Ht0, Hr0, He0 in *.
  unfold step_summary. repeat apply conj.
  - destruct Het as [[_ Ht] | (m & _ & Ht)]; rewrite Ht.
    + apply at_most_one_more_refl.
    + apply at_most_one_more_snoc.
  - destruct Hr as [Hr | Hr]; [now left|].
    right. eexists. split; [apply hook_request_get | exact Hr].
  - now left.
  - destruct Het as [[[He | He] _] | (m & He & Ht)]; eauto.
Qed.

Lemma action_summary (a : Action) (w : World) :
  completion (perform a) w = Normal tt /\ step_summary w (step w a).
Proof.
  destruct a as [user net | user ids net | user ids net | user event net | p];
    unfold step; cbn [perform].
  - split; [apply load_fields | now apply load_summary].
  - destruct (markAsRead_fields user ids net w)
      as (Hc & Hl & He & _ & Ht & Hr).
    split; [exact Hc|]. unfold step_summary. repeat apply conj; auto.
    destruct Hr as [Hr | Hr]; [now left|].
    right. eexists. split; [apply hook_request_patch | exact Hr].
  - destruct (deleteNotifications_fields user ids net w)
      as (Hc & Hl & He & _ & Ht & Hr).
    split; [exact Hc|]. unfold step_summary. repeat apply conj; auto.
    destruct Hr as [Hr | Hr]; [now left|].
    right. eexists. split; [apply hook_request_delete | exact Hr].
  - destruct (String.eqb_spec event "SIGNED_IN") as [-> | Hne].
    + unfold completion, run. rewrite signed_in_unfold. split.
      * apply load_fields.
      * now apply load_summary.
    + destruct (auth_other_fields user event net w Hne)
        as (Hc & Hl & He & _ & Ht & Hr).
      split; [exact Hc|]. unfold step_summary. repeat apply conj; auto.
      rewrite Ht. apply at_most_one_more_refl.
  - split; [apply realtime_completes|].
    destruct (realtime_fields p w) as (Hl & He & Hr & Ht & _).
    unfold step_summary. repeat apply conj; auto.
Qed.

(** X18. Only a load touches the flags: every action that does not run
    [loadNotifications] (the mutations, the realtime events, the auth
    events other than SIGNED_IN) leaves [loading] and [error] as they
    were, whatever the network answers. *)
Theorem only_loads_touch_flags (a : Action) (w : World) :
  starts_load a = false ->
  loading (step w a) = loading w /\ error (step w a) = error w.
Proof.
  destruct a as [user net | user ids net | user ids net | user event net | p];
    unfold step; cbn [perform starts_load]; intros Hs.
  - discriminate Hs.
  - now destruct (markAsRead_fields user ids net w) as (_ & Hl & He & _).
  - now destruct (deleteNotifications_fields user ids net w)
      as (_ & Hl & He & _).
  - apply String.eqb_neq in Hs.
    now destruct (auth_other_fields user event net w Hs) as (_ & Hl & He & _).
  - now destruct (realtime_fields p w) as (Hl & He & _).
Qed.

Lemma only_loads_touch_flags_witness :
  starts_load (CallDelete (Some alice) ["1"] (Normal html_500)) = false /\
  error (step loaded (CallDelete (Some alice) ["1"] (Normal html_500))) =
  error loaded.
Proof.
  split; [reflexivity|].
  apply (only_loads_touch_flags
           (CallDelete (Some alice) ["1"] (Normal html_500)) loaded eq_refl).
Defined.

(** X19. Only a load and a realtime INSERT can bring in an item: after any
    other action the ids of the list are the old ids with some dropped, in
    the same order; so if the ids were pairwise distinct they still are. *)
Theorem ids_never_added (a : Action) (w : World) :
  may_add_items a = false ->
  Subsequence (map Notification.id (notifications (step w a)))
              (map Notification.id (notifications w)) /\
  (NoDup (map Notification.id (notifications w)) ->
   NoDup (map Notification.id (notifications (step w a)))).
Proof.
  intros Hadd.
  assert (Hsub : Subsequence (map Notification.id (notifications (step w a)))
                             (map Notification.id (notifications w))).
  { destruct a as [user net | user ids net | user ids net | user event net | p];
      unfold may_add_items in Hadd; cbn [starts_load] in Hadd.
    - discriminate Hadd.
    - destruct (markAsRead_fields user ids net w)
        as (_ & _ & _ & [Hn | Hn] & _); unfold step; cbn [perform];
        rewrite Hn; [|unfold marked; rewrite mark_ids];
        apply Subsequence_refl.
    - destruct (deleteNotifications_fields user ids net w)
        as (_ & _ & _ & [Hn | Hn] & _); unfold step; cbn [perform];
        rewrite Hn.
      + apply Subsequence_refl.
      + apply Subsequence_map, filter_Subsequence.
    - apply orb_false_iff in Hadd as [Hs _]. apply String.eqb_neq in Hs.
      destruct (auth_other_fields user event net w Hs)
        as (_ & _ & _ & [Hn | Hn] & _); unfold step; cbn [perform];
        rewrite Hn.
      + apply Subsequence_refl.
      + apply Subsequence_nil.
    - simpl in Hadd. apply String.eqb_neq in Hadd.
      destruct (realtime_fields p w) as (_ & _ & _ & _ & [Hi | Hsub]);
        [contradiction | exact Hsub]. }
  split; [exact Hsub|]. now apply Subsequence_NoDup.
Qed.

Lemma ids_never_added_witness :
  may_add_items (RealtimeEvent (update_of (sample "7" true))) = false /\
  NoDup (map Notification.id
             (notifications
                (step loaded (RealtimeEvent (update_of (sample "7" true)))))).
Proof.
  split; [reflexivity|].
  apply (ids_never_added (RealtimeEvent (update_of (sample "7" true))) loaded
           eq_refl).
  vm_compute. repeat constructor; simpl; intuition discriminate.
Defined.

(** X20. No action lets an error escape, and each one adds at most one
    notice and at most one request. *)
Theorem every_action_completes (a : Action) (w : World) :
  completion (perform a) w = Normal tt /\
  at_most_one_more (toasts w) (toasts (step w a)) /\
  at_most_one_more (requests w) (requests (step w a)).
Proof.
  destruct (action_summary a w) as (Hc & Ht & Hr & _).
  repeat apply conj; try assumption.
  destruct Hr as [Hr | (q & _ & Hr)]; rewrite Hr.
  - apply at_most_one_more_refl.
  - apply at_most_one_more_snoc.
Qed.

(** ** Invariants of the reachable states *)

Lemma toasts_grow (a : Action) (w : World) (t : Toast) :
  In t (toasts w) -> In t (toasts (step w a)).
Proof.
  intros Hin. destruct (action_summary a w) as (_ & [Ht | (x & Ht)] & _);
    rewrite Ht; [assumption | apply in_or_app; now left].
Qed.

(** X21. In every reachable state, a message held in [error] has been
    shown to the user as a failure notice. *)
Theorem recorded_error_was_shown (w : World) (m : string) :
  Reachable w -> error w = Some m -> In (ToastError m) (toasts w).
Proof.
  intros Hreach. revert m.
  induction Hreach as [|w a Hreach IH]; intros m Herr.
  - discriminate Herr.
  - destruct (action_summary a w) as (_ & _ & _ & _ & He).
    destruct He as [He | [He | (m' & He & Ht)]].
    + apply toasts_grow, IH. congruence.
    + congruence.
    + rewrite Ht. apply in_or_app. right. left. congruence.
Qed.

Lemma recorded_error_was_shown_witness :
  Reachable (step loaded (CallLoad (Some alice) (Normal json_404))) /\
  error (step loaded (CallLoad (Some alice) (Normal json_404))) =
    Some "no such row" /\
  In (ToastError "no such row")
     (toasts (step loaded (CallLoad (Some alice) (Normal json_404)))).
Proof.
  assert (Hreach :
    Reachable (step loaded (CallLoad (Some alice) (Normal json_404)))).
  { apply reach_step. unfold loaded. apply reach_step, reach_initial. }
  assert (Herr :
    error (step loaded (CallLoad (Some alice) (Normal json_404))) =
    Some "no such row") by (vm_compute; reflexivity).
  split; [exact Hreach | split; [exact Herr|]].
  exact (recorded_error_was_shown _ _ Hreach Herr).
Defined.



(** X23. In every reachable state, every request ever made is one of the
    hook's three: GET of the list endpoint, or PATCH or DELETE (with
    credentials) of the endpoint followed by comma-joined ids. *)
Theorem requests_stay_on_the_endpoint (w : World) :
  Reachable w -> Forall hook_request (requests w).
Proof.
  induction 1 as [|w a Hreach IH]; [constructor|].
  destruct (action_summary a w) as (_ & _ & [Hr | (q & Hq & Hr)] & _);
    rewrite Hr; [assumption|].
  apply Forall_app. split; [assumption | now constructor].
Qed.

Lemma requests_stay_on_the_endpoint_witness :
  Reachable (step loaded (CallMarkAsRead (Some alice) ["1"; "2"]
                                         (Abrupt JsNonError))) /\
  Forall hook_request
    (requests (step loaded (CallMarkAsRead (Some alice) ["1"; "2"]
                                           (Abrupt JsNonError)))).
Proof.
  assert (Hreach :
    Reachable (step loaded (CallMarkAsRead (Some alice) ["1"; "2"]
                                           (Abrupt JsNonError)))).
  { apply reach_step. unfold loaded. apply reach_step, reach_initial. }
  split; [exact Hreach|].
  exact (requests_stay_on_the_endpoint _ Hreach).
Defined.

(** ** The mount effect and its cleanup *)

Lemma channel_eqb_refl (c : Channel) : channel_eqb c c = true.
Proof. unfold channel_eqb. now rewrite !String.eqb_refl. Qed.

Lemma live_channels_app (calls more : list SupabaseCall) :
  live_channels (calls ++ more) =
  fold_left apply_call more (live_channels calls).
Proof. unfold live_channels. apply fold_left_app. Qed.

Lemma setup_calls
    (user : option User) (net : Completion Response) (listening : bool)
    (h : Host) :
  supabase (fst (useEffect_setup user net listening h)) =
  (supabase h ++
   AuthListen ::
   match user with
   | Some u => [ChannelSubscribe (channel_of u)]
   | None => []
   end)%list /\
  snd (useEffect_setup user net listening h) =
  mkEffectHandles listening (option_map channel_of user).
Proof.
  unfold useEffect_setup. destruct user as [u|]; cbn [fst snd supabase].
  - rewrite <- app_assoc. split; reflexivity.
  - split; reflexivity.
Qed.

Lemma setup_world
    (user : option User) (net : Completion Response) (listening : bool)
    (h : Host) :
  let w := world h in
  let w1 := run (loadNotifications user net) w in
  let w' := world (fst (useEffect_setup user net listening h)) in
  notifications w' = notifications w1 /\ loading w' = loading w1 /\
  error w' = error w1 /\ toasts w' = toasts w1 /\ requests w' = requests w1.
Proof.
  cbv zeta. unfold useEffect_setup.
  assert (Hload : forall w0,
    let w1 := run (console_log "[useNotifications] Effet de chargement initial" ;;
                   loadNotifications user net) w0 in
    let w2 := run (loadNotifications user net) w0 in
    notifications w1 = notifications w2 /\ loading w1 = loading w2 /\
    error w1 = error w2 /\ toasts w1 = toasts w2 /\
    requests w1 = requests w2).
  { intros w0. cbv zeta. unfold loadNotifications.
    destruct user as [u|]; run_eff.
    - destruct net as [r|e]; run_eff; [|repeat split].
      destruct (ok r); run_eff.
      + destruct (json r) as [[data|body]|e]; repeat split.
      + destruct (truthy (content_type r) && _).
        * destruct (json r) as [v|e]; repeat split.
        * destruct (text r) as [t|e]; repeat split.
    - repeat split. }
  destruct user as [u|]; cbn [fst world]; [|apply Hload].
  destruct (Hload (world h)) as (Hn & Hl & He & Ht & Hr).
  cbv zeta in Hn, Hl, He, Ht, Hr.
  rewrite <- Hn, <- Hl, <- He, <- Ht, <- Hr. repeat split.
Qed.

(** X24. Mounting without an identity registers the auth listener and
    nothing else: no realtime channel is opened and no request is made;
    the list is emptied and [loading] cleared.  Mounting with an identity
    opens exactly one channel, named and filtered by that identity's id,
    and makes the one GET of the load. *)
Theorem mount_subscribes_by_identity
    (net : Completion Response) (listening : bool) (h : Host) :
  (let out := useEffect_setup None net listening h in
   supabase (fst out) = (supabase h ++ [AuthListen])%list /\
   realtimeSubscription (snd out) = None /\
   requests (world (fst out)) = requests (world h) /\
   notifications (world (fst out)) = [] /\
   loading (world (fst out)) = false) /\
  (forall u,
     let out := useEffect_setup (Some u) net listening h in
     supabase (fst out) =
       (supabase h ++
        [AuthListen;
         ChannelSubscribe
           (mkChannel ("notifications:" ++ user_id u) "*" "public"
                      "Notification" ("userId=eq." ++ user_id u))])%list /\
     realtimeSubscription (snd out) <> None /\
     requests (world (fst out)) =
       (requests (world h) ++
        [mkRequest "/api/notifications" "GET" None])%list).
Proof.
  split.
  - cbv zeta.
    destruct (setup_calls None net listening h) as [Hc Hh].
    destruct (setup_world None net listening h) as (Hn & Hl & _ & _ & Hr).
    destruct (load_no_user net (world h)) as (_ & Hn' & Hl' & _ & _ & Hr').
    cbv zeta in Hn, Hl, Hr. unfold run in Hn, Hl, Hr.
    rewrite Hc, Hh, Hn, Hl, Hr, Hn', Hl', Hr'. repeat split.
  - intros u. cbv zeta.
    destruct (setup_calls (Some u) net listening h) as [Hc Hh].
    destruct (setup_world (Some u) net listening h) as (_ & _ & _ & _ & Hr).
    cbv zeta in Hr. rewrite Hc, Hh, Hr, load_requests.
    repeat split. discriminate.
Qed.

(** X25. The cleanup gives back exactly what the setup took, once each and
    in the same order: for every identity and every answer of the network,
    the calls of the cleanup are the releases of the calls of the setup
    (given that the auth registration returned its listener).  The cleanup
    does not touch the state cells. *)
Theorem cleanup_releases_what_setup_acquired
    (user : option User) (net : Completion Response) (h : Host) :
  let h1 := fst (useEffect_setup user net true h) in
  let handles := snd (useEffect_setup user net true h) in
  let h2 := useEffect_cleanup handles h1 in
  (exists acquired,
     supabase h1 = (supabase h ++ acquired)%list /\
     supabase h2 = (supabase h1 ++ map release acquired)%list) /\
  notifications (world h2) = notifications (world h1) /\
  loading (world h2) = loading (world h1) /\
  error (world h2) = error (world h1).
Proof.
  cbv zeta.
  destruct (setup_calls user net true h) as [Hc Hh].
  split.
  - eexists. split; [exact Hc|].
    unfold useEffect_cleanup. rewrite Hh. cbn [authListener realtimeSubscription supabase].
    destruct user as [u|]; cbn [option_map map release].
    + now rewrite <- app_assoc.
    + reflexivity.
  - unfold useEffect_cleanup. cbn [world]. run_eff. repeat split.
Qed.

(** X26. When the identity changes (cleanup of the old effect, then setup
    for the new identity), the channel of the old identity is no longer
    subscribed and the only channel added to those subscribed before the
    first mount is the new identity's. *)
Theorem identity_change_swaps_channel
    (u1 u2 : User) (net1 net2 : Completion Response) (h : Host) :
  let m1 := useEffect_setup (Some u1) net1 true h in
  let h2 := useEffect_cleanup (snd m1) (fst m1) in
  let m2 := useEffect_setup (Some u2) net2 true h2 in
  live_channels (supabase (fst m1)) =
    channel_of u1 :: live_channels (supabase h) /\
  live_channels (supabase h2) = live_channels (supabase h) /\
  live_channels (supabase (fst m2)) =
    channel_of u2 :: live_channels (supabase h).
Proof.
  cbv zeta.
  destruct (setup_calls (Some u1) net1 true h) as [Hc1 Hh1].
  assert (H1 : live_channels (supabase (fst (useEffect_setup (Some u1) net1 true h))) =
               channel_of u1 :: live_channels (supabase h)).
  { rewrite Hc1, live_channels_app. reflexivity. }
  assert (H2 : live_channels
                 (supabase (useEffect_cleanup
                              (snd (useEffect_setup (Some u1) net1 true h))
                              (fst (useEffect_setup (Some u1) net1 true h)))) =
               live_channels (supabase h)).
  { unfold useEffect_cleanup. rewrite Hh1.
    cbn [authListener realtimeSubscription supabase option_map].
    rewrite <- app_assoc, live_channels_app, H1.
    cbn [fold_left apply_call app remove_channel].
    now rewrite channel_eqb_refl. }
  repeat apply conj; try assumption.
  destruct (setup_calls (Some u2) net2 true
              (useEffect_cleanup (snd (useEffect_setup (Some u1) net1 true h))
                                 (fst (useEffect_setup (Some u1) net1 true h))))
    as [Hc2 _].
  rewrite Hc2, live_channels_app, H2. reflexivity.
Qed.

Example identity_change_scenario :
  let m1 := useEffect_setup (Some alice) (Normal (ok_response two_unread))
                            true fresh_host in
  let h2 := useEffect_cleanup (snd m1) (fst m1) in
  let m2 := useEffect_setup (Some bob) (Normal (ok_response [])) true h2 in
  live_channels (supabase (fst m1)) = [channel_of alice] /\
  live_channels (supabase (fst m2)) = [channel_of bob] /\
  notifications (world (fst m2)) = [].
Proof. vm_compute. repeat split. Qed.
